(** * Room-booking service: shallow embedding of the booking core

    Sources: [app/models/booking.py], [app/models/room.py],
    [app/schemas/booking.py], [app/routers/bookings.py],
    [app/routers/rooms.py], [app/utils/scheduler.py].

    Conventions of the embedding:
    - a [datetime] is a [Z] count of seconds on a single canonical clock;
      [timedelta(hours=1)] is [3600]; sub-second precision is not modelled;
    - a table is a list of rows in rowid order; SQLite gives a new row the
      rowid [max(rowid)+1] (the tables are [INTEGER PRIMARY KEY] without
      AUTOINCREMENT), [1] in an empty table;
    - a handler returns its outcome and the database after it; a raised
      exception leaves the database as it was (nothing was committed);
    - [models/booking.py] maps the columns [id], [room_id], [user_id],
      [start_time] and [purpose] only; the routers read and write
      [Booking.end_time] as well. Whether the ORM class has that attribute
      is the parameter [end_time_mapped] of the handlers: when it has not,
      the class attribute access [Booking.end_time] in a query raises
      [AttributeError] and the keyword [end_time=] of the declarative
      constructor raises [TypeError]. [models_booking_end_time_mapped]
      is its value in the repository. *)

From Stdlib Require Import ZArith List String Bool Lia Sorted.
Import ListNotations.
Open Scope string_scope.
Open Scope list_scope.
Open Scope Z_scope.

(** ** Time *)

Definition HOUR : Z := 3600.

(** [datetime.minute] and [datetime.second] of an instant. *)
Definition minute (t : Z) : Z := (t mod 3600) / 60.
Definition second (t : Z) : Z := t mod 60.

(** The router's check [t.minute != 0 or t.second != 0]. *)
Definition misaligned (t : Z) : bool :=
  negb (minute t =? 0) || negb (second t =? 0).

(** The pydantic validator [validate_start_time] of the request schemas
    (its [microsecond] test is vacuous at second precision). *)
Definition valid_start_time (t : Z) : bool := negb (misaligned t).

(** ** Data model *)

Module Room.
Record t := mk {
  id : Z;
  name : string;
  capacity : Z;
  location : option string
}.
End Room.

Module Booking.
Record t := mk {
  id : Z;
  room_id : Z;
  user_id : Z;
  start_time : Z;
  end_time : Z;
  purpose : option string
}.
End Booking.

Record db := mkdb {
  rooms : list Room.t;
  bookings : list Booking.t
}.

(** The dictionary [current_user] returned by [get_current_user]. *)
Record user := mkuser { uid : Z; username : string }.

(** Exceptions a handler can raise. *)
Inductive error :=
| HTTPException (status_code : Z) (detail : string)
| AttributeError (attr : string)
| TypeError (kwarg : string)
| IntegrityError (column : string)
| ValueError (msg : string)
| OverflowError (msg : string)
| ResponseValidationError (field : string).

Inductive result (A : Type) :=
| Ok (a : A)
| Err (e : error).
Arguments Ok {A} a.
Arguments Err {A} e.

Definition models_booking_end_time_mapped : bool := false.

(** Error values raised by the booking router. *)
Definition ROOM_NOT_FOUND := HTTPException 404 "Room not found".
Definition BOOKING_NOT_FOUND := HTTPException 404 "Booking not found".
Definition CAPACITY_INSUFFICIENT := HTTPException 400 "Room capacity insufficient".
Definition BAD_START := HTTPException 400 "Start time must be at the start of an hour".
Definition ALREADY_BOOKED := HTTPException 400 "Room is already booked for this time slot".
Definition NOT_AUTH_UPDATE := HTTPException 403 "Not authorized to update this booking".
Definition NOT_AUTH_DELETE := HTTPException 403 "Not authorized to delete this booking".
Definition NO_SUITABLE_ROOM := HTTPException 404 "No suitable room available".
Definition BAD_DURATION := HTTPException 400 "Duration must be positive".
Definition UNAUTHORIZED := HTTPException 401 "Could not validate credentials".

(** ** Queries *)

(** [db.query(Room).filter(Room.id == room_id).first()] *)
Definition find_room (d : db) (room_id : Z) : option Room.t :=
  find (fun r => Room.id r =? room_id) (rooms d).

(** [db.query(Booking).filter(Booking.id == booking_id).first()] *)
Definition find_booking (d : db) (booking_id : Z) : option Booking.t :=
  find (fun b => Booking.id b =? booking_id) (bookings d).

(** The rowid SQLite gives a new row: one more than the largest. *)
Definition next_rowid (ids : list Z) : Z := fold_right Z.max 0 ids + 1.

(** Overlap filter of [create_booking] and [update_booking]:
    [Booking.room_id == room_id, Booking.start_time < end,
     Booking.end_time > start] (and [Booking.id != exclude] on update). *)
Definition overlap_row (room_id : Z) (exclude : option Z) (s e : Z)
    (b : Booking.t) : bool :=
  (Booking.room_id b =? room_id)
  && match exclude with Some i => negb (Booking.id b =? i) | None => true end
  && (Booking.start_time b <? e) && (s <? Booking.end_time b).

(** The query with [.first()]: raises when [Booking.end_time] is not an
    attribute of the ORM class. *)
Definition overlapping (mapped : bool) (d : db) (room_id : Z)
    (exclude : option Z) (s e : Z) : result (option Booking.t) :=
  if mapped then Ok (find (overlap_row room_id exclude s e) (bookings d))
  else Err (AttributeError "end_time").

(** ** [create_booking] *)

Record BookingCreate := mkBookingCreate {
  bc_room_id : Z;
  bc_start_time : Z;
  bc_purpose : option string;
  bc_required_capacity : Z
}.

(** [Booking(room_id=..., user_id=..., start_time=..., end_time=...,
    purpose=...)] followed by [db.add] and [db.commit]. *)
Definition insert_booking (mapped : bool) (d : db) (room_id user_id s e : Z)
    (purpose : option string) : result Booking.t * db :=
  if mapped then
    let b := Booking.mk (next_rowid (map Booking.id (bookings d)))
               room_id user_id s e purpose in
    (Ok b, mkdb (rooms d) (bookings d ++ [b]))
  else (Err (TypeError "end_time"), d).

Definition create_booking (mapped : bool) (booking : BookingCreate)
    (d : db) (current_user : user) : result Booking.t * db :=
  match find_room d (bc_room_id booking) with
  | None => (Err ROOM_NOT_FOUND, d)
  | Some room =>
    if Room.capacity room <? bc_required_capacity booking
    then (Err CAPACITY_INSUFFICIENT, d)
    else if misaligned (bc_start_time booking) then (Err BAD_START, d)
    else
      let end_time := bc_start_time booking + HOUR in
      match overlapping mapped d (bc_room_id booking) None
              (bc_start_time booking) end_time with
      | Err e => (Err e, d)
      | Ok (Some _) => (Err ALREADY_BOOKED, d)
      | Ok None =>
        insert_booking mapped d (bc_room_id booking) (uid current_user)
          (bc_start_time booking) end_time (bc_purpose booking)
      end
  end.

(** ** [update_booking] *)

(** A field of [BookingUpdate]: [None] when the request leaves it unset,
    [Some None] when it sets it to [null], [Some (Some v)] otherwise;
    [booking_update.dict(exclude_unset=True)] holds the fields that are
    [Some _]. *)
Record BookingUpdate := mkBookingUpdate {
  bu_room_id : option (option Z);
  bu_start_time : option (option Z);
  bu_purpose : option (option string)
}.

(** The validator of [BookingUpdate.start_time]. *)
Definition valid_BookingUpdate (bu : BookingUpdate) : bool :=
  match bu_start_time bu with
  | Some (Some t) => valid_start_time t
  | _ => true
  end.

(** Python truthiness of [booking_update.room_id] (an [int]: [0] is
    falsy) and of [booking_update.start_time] (a [datetime]: always
    truthy): the value of the field when it is truthy. *)
Definition truthy_room_id (o : option (option Z)) : option Z :=
  match o with
  | Some (Some r) => if r =? 0 then None else Some r
  | _ => None
  end.

Definition truthy_start_time (o : option (option Z)) : option Z :=
  match o with
  | Some (Some t) => Some t
  | _ => None
  end.

(** The checks [update_booking] runs on its way, in order. *)
Inductive gate :=
| GValidate (t : Z)
| GRoomLookup (room_id : Z)
| GOverlap (room_id : Z) (exclude : Z) (s e : Z).

(** The [setattr] loop over [update_data], then
    [db_booking.start_time = new_start_time],
    [db_booking.end_time = new_end_time] and [db.commit()]: a [room_id]
    set to [null] fails the column's NOT NULL constraint at commit. *)
Definition apply_update (bu : BookingUpdate) (b : Booking.t)
    (new_start new_end : Z) : result Booking.t :=
  let room :=
    match bu_room_id bu with
    | None => Some (Booking.room_id b)
    | Some r => r
    end in
  let purpose :=
    match bu_purpose bu with
    | None => Booking.purpose b
    | Some p => p
    end in
  match room with
  | None => Err (IntegrityError "bookings.room_id")
  | Some r =>
    Ok (Booking.mk (Booking.id b) r (Booking.user_id b) new_start new_end purpose)
  end.

Definition replace_booking (d : db) (booking_id : Z) (b : Booking.t) : db :=
  mkdb (rooms d)
    (map (fun x => if Booking.id x =? booking_id then b else x) (bookings d)).

Definition update_booking_traced (mapped : bool) (booking_id : Z)
    (booking_update : BookingUpdate) (d : db) (current_user : user)
    : (result Booking.t * db) * list gate :=
  match find_booking d booking_id with
  | None => ((Err BOOKING_NOT_FOUND, d), [])
  | Some db_booking =>
    if negb (Booking.user_id db_booking =? uid current_user)
    then ((Err NOT_AUTH_UPDATE, d), [])
    else
      let new_start_time :=
        match truthy_start_time (bu_start_time booking_update) with
        | Some t => t
        | None => Booking.start_time db_booking
        end in
      let new_end_time := new_start_time + HOUR in
      let commit (gs : list gate) :=
        match apply_update booking_update db_booking new_start_time new_end_time with
        | Err e => ((Err e, d), gs)
        | Ok b => ((Ok b, replace_booking d booking_id b), gs)
        end in
      if misaligned new_start_time
      then ((Err BAD_START, d), [GValidate new_start_time])
      else
        match truthy_room_id (bu_room_id booking_update),
              truthy_start_time (bu_start_time booking_update) with
        | None, None => commit [GValidate new_start_time]
        | given_room, _ =>
          let room_id :=
            match given_room with
            | Some r => r
            | None => Booking.room_id db_booking
            end in
          match find_room d room_id with
          | None => ((Err ROOM_NOT_FOUND, d), [GValidate new_start_time; GRoomLookup room_id])
          | Some _ =>
            let gs := [GValidate new_start_time; GRoomLookup room_id;
                       GOverlap room_id booking_id new_start_time new_end_time] in
            match overlapping mapped d room_id (Some booking_id)
                    new_start_time new_end_time with
            | Err e => ((Err e, d), gs)
            | Ok (Some _) => ((Err ALREADY_BOOKED, d), gs)
            | Ok None => commit gs
            end
          end
        end
  end.

Definition update_booking (mapped : bool) (booking_id : Z)
    (booking_update : BookingUpdate) (d : db) (current_user : user)
    : result Booking.t * db :=
  fst (update_booking_traced mapped booking_id booking_update d current_user).

(** ** [get_bookings], [get_booking], [delete_booking] *)

(** [db.query(Booking).offset(skip).limit(limit).all()]: SQLite reads a
    negative offset as [0] and a negative limit as no limit. *)
Definition get_bookings (skip limit : Z) (d : db) : list Booking.t :=
  let rest := skipn (Z.to_nat skip) (bookings d) in
  if limit <? 0 then rest else firstn (Z.to_nat limit) rest.

Definition get_booking (booking_id : Z) (d : db) : result Booking.t :=
  match find_booking d booking_id with
  | None => Err BOOKING_NOT_FOUND
  | Some b => Ok b
  end.

(** [db.delete(db_booking)]: [DELETE FROM bookings WHERE id = ?]. *)
Definition delete_booking (booking_id : Z) (d : db) (current_user : user)
    : result unit * db :=
  match find_booking d booking_id with
  | None => (Err BOOKING_NOT_FOUND, d)
  | Some db_booking =>
    if negb (Booking.user_id db_booking =? uid current_user)
    then (Err NOT_AUTH_DELETE, d)
    else (Ok tt, mkdb (rooms d)
                   (filter (fun b => negb (Booking.id b =? booking_id)) (bookings d)))
  end.

(** ** [find_optimal_room] ([app/utils/scheduler.py]) *)

(** The conflict filter of the scheduler:
    [Booking.room_id == room.id, Booking.start_time < end_time,
     Booking.start_time >= start_time - timedelta(hours=1)]. *)
Definition scheduler_conflict (room_id start_time end_time : Z)
    (b : Booking.t) : bool :=
  (Booking.room_id b =? room_id)
  && (Booking.start_time b <? end_time)
  && (start_time - HOUR <=? Booking.start_time b).

(** [.count()] of that query. *)
Definition conflicts (d : db) (room_id start_time end_time : Z) : nat :=
  List.length (filter (scheduler_conflict room_id start_time end_time) (bookings d)).

(** [min_occupancy] starts at [float('inf')], modelled as [None]. *)
Definition lt_occupancy (c : Z) (min_occupancy : option Z) : bool :=
  match min_occupancy with
  | None => true
  | Some m => c <? m
  end.

(** The loop over [available_rooms] with [optimal_room] and
    [min_occupancy]. *)
Fixpoint select_room (d : db) (start_time end_time : Z)
    (available_rooms : list Room.t) (optimal_room : option Room.t)
    (min_occupancy : option Z) : option Room.t :=
  match available_rooms with
  | [] => optimal_room
  | room :: rest =>
    if (conflicts d (Room.id room) start_time end_time =? 0)%nat
       && lt_occupancy (Room.capacity room) min_occupancy
    then select_room d start_time end_time rest (Some room) (Some (Room.capacity room))
    else select_room d start_time end_time rest optimal_room min_occupancy
  end.

Definition find_optimal_room (d : db) (start_time end_time required_capacity : Z)
    : result (option Room.t) :=
  if misaligned start_time
  then Err (ValueError "Start time must be at the beginning of an hour (e.g., 13:00:00)")
  else
    let available_rooms :=
      filter (fun r => required_capacity <=? Room.capacity r) (rooms d) in
    Ok (select_room d start_time end_time available_rooms None None).

(** ** [optimize_booking] *)

(** [BookingOptimizeRequest] declares [start_time] and
    [required_capacity] only: the handler's read of [booking.purpose]
    raises [AttributeError] on the pydantic model. *)
Record BookingOptimizeRequest := mkBookingOptimizeRequest {
  bo_start_time : Z;
  bo_required_capacity : Z
}.

Definition optimize_booking (mapped : bool) (booking : BookingOptimizeRequest)
    (d : db) (current_user : user) : result Booking.t * db :=
  if misaligned (bo_start_time booking) then (Err BAD_START, d)
  else
    let end_time := bo_start_time booking + HOUR in
    match find_optimal_room d (bo_start_time booking) end_time
            (bo_required_capacity booking) with
    | Err e => (Err e, d)
    | Ok None => (Err NO_SUITABLE_ROOM, d)
    | Ok (Some optimal_room) =>
      (* the keyword arguments of [Booking(...)] are evaluated first:
         [purpose=booking.purpose] raises before the constructor runs *)
      (Err (AttributeError "purpose"), d)
    end.

(** ** [get_available_slots] *)

(** One [while current_time + duration_delta <= limit] loop: the slots it
    appends and the final [current_time]. The loop runs at most
    [limit - current_time] times for a positive [duration_delta]; [fuel]
    bounds it ([fill_fuel_enough] below). *)
Fixpoint fill (fuel : nat) (current_time duration_delta limit : Z)
    : list (Z * Z) * Z :=
  match fuel with
  | O => ([], current_time)
  | S f =>
    if current_time + duration_delta <=? limit then
      let slot_end := current_time + duration_delta in
      let '(slots, c) := fill f slot_end duration_delta limit in
      ((current_time, slot_end) :: slots, c)
    else ([], current_time)
  end.

Definition while_slots (current_time duration_delta limit : Z) : list (Z * Z) * Z :=
  fill (Z.to_nat (limit - current_time)) current_time duration_delta limit.

(** The [for booking in bookings] loop. *)
Fixpoint sweep (bookings : list Booking.t) (current_time duration_delta : Z)
    : list (Z * Z) * Z :=
  match bookings with
  | [] => ([], current_time)
  | booking :: rest =>
    let '(slots, c) := while_slots current_time duration_delta (Booking.start_time booking) in
    let '(slots', c') := sweep rest (Z.max c (Booking.end_time booking)) duration_delta in
    (slots ++ slots', c')
  end.

(** [.order_by(Booking.start_time)] (stable on equal start times). *)
Fixpoint insert_by_start (b : Booking.t) (l : list Booking.t) : list Booking.t :=
  match l with
  | [] => [b]
  | x :: r =>
    if Booking.start_time x <? Booking.start_time b
    then x :: insert_by_start b r
    else b :: l
  end.

Definition order_by_start (l : list Booking.t) : list Booking.t :=
  fold_right insert_by_start [] l.

(** A [date] is a day number; its midnight is [date * 86400]. *)
Definition get_available_slots (mapped : bool) (room_id date duration : Z)
    (d : db) : result (list (Z * Z)) :=
  if duration <=? 0 then Err BAD_DURATION
  else
    match find_room d room_id with
    | None => Err ROOM_NOT_FOUND
    | Some _ =>
      let day_start := date * 86400 + 8 * HOUR in
      let day_end := day_start + 10 * HOUR in
      if negb mapped then Err (AttributeError "end_time")
      else
        let bks := order_by_start
          (filter (fun b => (Booking.room_id b =? room_id)
                            && (day_start <=? Booking.start_time b)
                            && (Booking.end_time b <=? day_end)) (bookings d)) in
        let duration_delta := duration * 60 in
        let '(slots, current_time) := sweep bks day_start duration_delta in
        let '(slots', _) := while_slots current_time duration_delta day_end in
        Ok (slots ++ slots')
    end.

(** ** Room endpoints ([app/routers/rooms.py]) *)

Record RoomCreate := mkRoomCreate {
  rc_name : string;
  rc_capacity : Z;
  rc_location : option string
}.

Record RoomUpdate := mkRoomUpdate {
  ru_name : option (option string);
  ru_capacity : option (option Z);
  ru_location : option (option string)
}.

(** The [sqlite3] binding of a Python [int]: outside SQLite's 64-bit
    [INTEGER] range it raises [OverflowError] when the statement runs. *)
Definition sqlite_int (z : Z) : bool := (- 2 ^ 63 <=? z) && (z <? 2 ^ 63).

Definition SQLITE_OVERFLOW := OverflowError "Python int too large to convert to SQLite INTEGER".

Definition create_room (room : RoomCreate) (d : db) : result Room.t * db :=
  if negb (sqlite_int (rc_capacity room)) then (Err SQLITE_OVERFLOW, d)
  else
  let r := Room.mk (next_rowid (map Room.id (rooms d)))
             (rc_name room) (rc_capacity room) (rc_location room) in
  (Ok r, mkdb (rooms d ++ [r]) (bookings d)).

(** [setattr] over [room_update.dict(exclude_unset=True)], then commit:
    [name] and [capacity] are NOT NULL columns. *)
Definition update_room (room_id : Z) (room_update : RoomUpdate) (d : db)
    : result Room.t * db :=
  match find_room d room_id with
  | None => (Err ROOM_NOT_FOUND, d)
  | Some db_room =>
    let name := match ru_name room_update with
                | None => Some (Room.name db_room) | Some n => n end in
    let capacity := match ru_capacity room_update with
                    | None => Some (Room.capacity db_room) | Some c => c end in
    let location := match ru_location room_update with
                    | None => Room.location db_room | Some l => l end in
    (* the UPDATE binds the columns that were set *)
    if match ru_capacity room_update with
       | Some (Some c) => negb (sqlite_int c) | _ => false end
    then (Err SQLITE_OVERFLOW, d) else
    match name, capacity with
    | None, _ => (Err (IntegrityError "rooms.name"), d)
    | _, None => (Err (IntegrityError "rooms.capacity"), d)
    | Some n, Some c =>
      let r := Room.mk (Room.id db_room) n c location in
      (Ok r, mkdb (map (fun x => if Room.id x =? room_id then r else x) (rooms d))
                  (bookings d))
    end
  end.

(** [db.delete(db_room)] with the relationship's
    [cascade="all, delete-orphan"]: the room's bookings go with it. *)
Definition delete_room (room_id : Z) (d : db) : result unit * db :=
  match find_room d room_id with
  | None => (Err ROOM_NOT_FOUND, d)
  | Some db_room =>
    (Ok tt, mkdb (filter (fun r => negb (Room.id r =? room_id)) (rooms d))
                 (filter (fun b => negb (Booking.room_id b =? Room.id db_room)) (bookings d)))
  end.

(** [get_rooms]: [db.query(Room).offset(skip).limit(limit).all()], read
    as [get_bookings] reads its query. *)
Definition get_rooms (skip limit : Z) (d : db) : list Room.t :=
  let rest := skipn (Z.to_nat skip) (rooms d) in
  if limit <? 0 then rest else firstn (Z.to_nat limit) rest.

Definition get_room (room_id : Z) (d : db) : result Room.t :=
  match find_room d room_id with
  | None => Err ROOM_NOT_FOUND
  | Some room => Ok room
  end.

(** ** Dispatch of requests *)

(** Who sends a request, as [get_current_user] and its [HTTPBearer]
    dependency see it: no [Authorization] header, a header whose scheme is
    not [Bearer], a token [jwt.decode] rejects (with the [JWTError]'s
    message), a token without ["sub"], a ["sub"] naming no user, or a valid
    token of a stored user. *)
Inductive requester :=
| Anonymous
| WrongScheme
| BadToken (jwt_error : string)
| NoSubject
| UnknownUser (username : string)
| Bearer (u : user).

(** [HTTPBearer(auto_error=True)] refuses a request before
    [get_current_user]'s body runs; the FastAPI releases this code was
    written against answer 403 there (later releases answer 401). *)
Definition HTTPBEARER_STATUS : Z := 403.

Definition get_current_user (rq : requester) : result user :=
  match rq with
  | Anonymous => Err (HTTPException HTTPBEARER_STATUS "Not authenticated")
  | WrongScheme =>
    Err (HTTPException HTTPBEARER_STATUS "Invalid authentication credentials")
  | BadToken msg =>
    Err (HTTPException 401 (String.append "Could not validate credentials: " msg))
  | NoSubject => Err UNAUTHORIZED
  | UnknownUser _ => Err UNAUTHORIZED
  | Bearer u => Ok u
  end.

Inductive endpoint :=
| PostBooking (booking : BookingCreate)
| GetBookings (skip limit : Z)
| GetBooking (booking_id : Z)
| PutBooking (booking_id : Z) (booking_update : BookingUpdate)
| DeleteBooking (booking_id : Z)
| PostOptimize (booking : BookingOptimizeRequest)
| GetAvailableSlots (room_id date duration : Z)
| PostRoom (room : RoomCreate)
| PutRoom (room_id : Z) (room_update : RoomUpdate)
| DeleteRoom (room_id : Z).

Inductive response :=
| RBooking (b : Booking.t)
| RBookings (bs : list Booking.t)
| RSlots (slots : list (Z * Z))
| RRoom (r : Room.t)
| RNoContent.

Definition map_result {A B} (f : A -> B) (r : result A) : result B :=
  match r with Ok a => Ok (f a) | Err e => Err e end.

Definition map_outcome {A B} (f : A -> B) (o : result A * db) : result B * db :=
  (map_result f (fst o), snd o).

(** The [response_model] of the read endpoints, [BookingResponse] with
    [orm_mode], reads [end_time] from every ORM row it serializes; without
    that attribute the row fails validation and FastAPI answers 500. *)
Definition serialize_row (mapped : bool) (b : Booking.t) : result Booking.t :=
  if mapped then Ok b else Err (ResponseValidationError "end_time").

Definition serialize_rows (mapped : bool) (bs : list Booking.t)
    : result (list Booking.t) :=
  match bs with
  | [] => Ok []
  | _ => if mapped then Ok bs else Err (ResponseValidationError "end_time")
  end.

(** The [Depends(get_current_user)] of an endpoint runs before its body. *)
Definition with_user (rq : requester) (d : db)
    (k : user -> result response * db) : result response * db :=
  match get_current_user rq with
  | Err e => (Err e, d)
  | Ok u => k u
  end.

Definition handle (mapped : bool) (rq : requester) (ep : endpoint) (d : db)
    : result response * db :=
  match ep with
  | PostBooking bc =>
    with_user rq d (fun u => map_outcome RBooking (create_booking mapped bc d u))
  | GetBookings skip limit =>
    (map_result RBookings (serialize_rows mapped (get_bookings skip limit d)), d)
  | GetBooking i =>
    (match get_booking i d with
     | Ok b => map_result RBooking (serialize_row mapped b)
     | Err e => Err e
     end, d)
  | PutBooking i bu =>
    with_user rq d (fun u => map_outcome RBooking (update_booking mapped i bu d u))
  | DeleteBooking i =>
    with_user rq d (fun u => map_outcome (fun _ => RNoContent) (delete_booking i d u))
  | PostOptimize bo =>
    with_user rq d (fun u => map_outcome RBooking (optimize_booking mapped bo d u))
  | GetAvailableSlots r date dur =>
    with_user rq d (fun _ => (map_result RSlots (get_available_slots mapped r date dur d), d))
  | PostRoom rc => with_user rq d (fun _ => map_outcome RRoom (create_room rc d))
  | PutRoom r ru => with_user rq d (fun _ => map_outcome RRoom (update_room r ru d))
  | DeleteRoom r => with_user rq d (fun _ => map_outcome (fun _ => RNoContent) (delete_room r d))
  end.

(** Request bodies pass their schema validators before a handler runs. *)
Definition valid_endpoint (ep : endpoint) : bool :=
  match ep with
  | PostBooking bc => valid_start_time (bc_start_time bc)
  | PutBooking _ bu => valid_BookingUpdate bu
  | PostOptimize bo => valid_start_time (bo_start_time bo)
  | _ => true
  end.

(** Databases reachable from the empty one through requests. *)
Inductive reachable (mapped : bool) : db -> Prop :=
| reach_init : reachable mapped (mkdb [] [])
| reach_step : forall d rq ep res d',
    reachable mapped d ->
    valid_endpoint ep = true ->
    handle mapped rq ep d = (res, d') ->
    reachable mapped d'.

(** ** Specification-side notions *)

(** The spec's half-open intersection test of [[s1,e1)] and [[s2,e2)]. *)
Definition overlaps (s1 e1 s2 e2 : Z) : Prop := s1 < e2 /\ s2 < e1.

(** A room is free for [[s,e)] when none of its bookings intersects it. *)
Definition room_free (d : db) (room_id s e : Z) : Prop :=
  forall b, In b (bookings d) -> Booking.room_id b = room_id ->
  ~ overlaps (Booking.start_time b) (Booking.end_time b) s e.

(** The start time and room an update aims at, falling back to the
    booking's own values for fields left unset (as the handler computes
    them: a [room_id] of [0] or [null] falls back too). *)
Definition effective_start (bu : BookingUpdate) (b : Booking.t) : Z :=
  match truthy_start_time (bu_start_time bu) with
  | Some t => t
  | None => Booking.start_time b
  end.

Definition effective_room (bu : BookingUpdate) (b : Booking.t) : Z :=
  match truthy_room_id (bu_room_id bu) with
  | Some r => r
  | None => Booking.room_id b
  end.

(** What every reachable database satisfies: room ids are positive, and
    every booking starts on the hour and lasts one hour. *)
Definition wf (d : db) : Prop :=
  (forall r, In r (rooms d) -> 0 < Room.id r)
  /\ (forall b, In b (bookings d) ->
        valid_start_time (Booking.start_time b) = true
        /\ Booking.end_time b = Booking.start_time b + HOUR).

(** Rows with distinct ids, as the primary keys require. *)
Definition ids_unique (d : db) : Prop :=
  NoDup (map Room.id (rooms d)) /\ NoDup (map Booking.id (bookings d)).

(** Order of [.order_by(Booking.start_time)], and of the returned slots. *)
Definition start_le (a b : Booking.t) : Prop := Booking.start_time a <= Booking.start_time b.

Definition slot_before (p q : Z * Z) : Prop := snd p <= fst q.

(** [n] consecutive slots of length [dur] from [cur]. *)
Fixpoint slots_from (cur dur : Z) (n : nat) : list (Z * Z) :=
  match n with
  | O => []
  | S k => (cur, cur + dur) :: slots_from (cur + dur) dur k
  end.

(** ** Sample data *)

Definition alice : user := mkuser 1 "alice".
Definition bob : user := mkuser 2 "bob".

(** 2025-05-04 is day 20212; 09:00 and 10:00 that day. *)
Definition day0 : Z := 20212.
Definition t0900 : Z := day0 * 86400 + 9 * HOUR.
Definition t1000 : Z := day0 * 86400 + 10 * HOUR.

Definition room10 : Room.t := Room.mk 1 "Test Room" 10 (Some "Floor 1").

(** Room 1 (capacity 10) with one booking of alice's at 09:00-10:00. *)
Definition db_0900 : db :=
  mkdb [room10] [Booking.mk 1 1 (uid alice) t0900 (t0900 + HOUR) (Some "Team Meeting")].

(** [db_0900] after bob's booking of room 1 at 10:00. *)
Definition db_0900_after_1000 : db :=
  mkdb [room10] (bookings db_0900 ++ [Booking.mk 2 1 (uid bob) t1000 (t1000 + HOUR) None]).

(** [db_0900] after alice moves her booking to 10:00 with purpose "Retro". *)
Definition booking_1000_retro : Booking.t :=
  Booking.mk 1 1 (uid alice) t1000 (t1000 + HOUR) (Some "Retro").

Definition room20 : Room.t := Room.mk 1 "Test Room" 20 (Some "Floor 1").

Example create_examples :
  fst (create_booking true (mkBookingCreate 1 t1000 None 5) db_0900 bob)
    = Ok (Booking.mk 2 1 (uid bob) t1000 (t1000 + HOUR) None)
  /\ fst (create_booking true (mkBookingCreate 1 (t0900 + 1800) None 5) db_0900 bob)
    = Err BAD_START
  /\ fst (create_booking true (mkBookingCreate 1 t0900 None 5) db_0900 bob)
    = Err ALREADY_BOOKED
  /\ fst (create_booking true (mkBookingCreate 1 t1000 None 20) db_0900 bob)
    = Err CAPACITY_INSUFFICIENT.
Proof. repeat split; reflexivity. Qed.

Example slots_example :
  get_available_slots true 1 day0 60 db_0900
  = Ok (map (fun i => (day0 * 86400 + i * HOUR, day0 * 86400 + (i + 1) * HOUR))
            [8; 10; 11; 12; 13; 14; 15; 16; 17]).
Proof. vm_compute. reflexivity. Qed.

Example optimize_example :
  find_optimal_room db_0900 t1000 (t1000 + HOUR) 5 = Ok None
  /\ find_optimal_room db_0900 (t1000 + HOUR) (t1000 + 2 * HOUR) 5 = Ok (Some room10).
Proof. split; reflexivity. Qed.

(** ** Basic facts about the queries *)

Lemma find_room_some (d : db) (r : Z) (room : Room.t) :
  find_room d r = Some room -> In room (rooms d) /\ Room.id room = r.
Proof.
  unfold find_room. intros H. apply find_some in H as [Hin Heq].
  split; [exact Hin | now apply Z.eqb_eq].
Qed.

Lemma find_booking_some (d : db) (i : Z) (b : Booking.t) :
  find_booking d i = Some b -> In b (bookings d) /\ Booking.id b = i.
Proof.
  unfold find_booking. intros H. apply find_some in H as [Hin Heq].
  split; [exact Hin | now apply Z.eqb_eq].
Qed.

Lemma next_rowid_pos (l : list Z) : 0 < next_rowid l.
Proof.
  unfold next_rowid.
  assert (0 <= fold_right Z.max 0 l) by (induction l; simpl; lia).
  lia.
Qed.

Lemma valid_of_not_misaligned (t : Z) :
  misaligned t = false -> valid_start_time t = true.
Proof. unfold valid_start_time. intros ->. reflexivity. Qed.

(** [find] on a boolean filter is [None] exactly when no element passes. *)
Lemma find_none_iff {A} (f : A -> bool) (l : list A) :
  find f l = None <-> forall x, In x l -> f x = false.
Proof.
  split.
  - apply find_none.
  - induction l as [|a l IH]; simpl; intros H; [reflexivity|].
    rewrite (H a (or_introl eq_refl)). apply IH. intros x Hx. apply H. now right.
Qed.

Ltac inv_pair H := injection H as <- <-.

(** ** The invariant [wf] *)

Lemma wf_add_booking (d : db) (i r u s : Z) (p : option string) :
  wf d -> valid_start_time s = true ->
  wf (mkdb (rooms d) (bookings d ++ [Booking.mk i r u s (s + HOUR) p])).
Proof.
  intros [Hr Hb] Hs. split; [exact Hr|]. simpl. intros b Hin.
  apply in_app_iff in Hin as [Hin | [<- | []]]; [now apply Hb | now split].
Qed.

Lemma wf_create (mapped : bool) (bc : BookingCreate) (d d' : db) (u : user)
    (res : result Booking.t) :
  wf d -> create_booking mapped bc d u = (res, d') -> wf d'.
Proof.
  intros Hwf H. unfold create_booking in H.
  destruct (find_room d _); [|inv_pair H; exact Hwf].
  destruct (_ <? _); [inv_pair H; exact Hwf|].
  destruct (misaligned _) eqn:Hm; [inv_pair H; exact Hwf|].
  destruct (overlapping _ _ _ _ _ _) as [[?|]|?]; try (inv_pair H; exact Hwf).
  unfold insert_booking in H. destruct mapped; inv_pair H; [|exact Hwf].
  apply wf_add_booking; [exact Hwf | now apply valid_of_not_misaligned].
Qed.

Lemma apply_update_ok (bu : BookingUpdate) (b b' : Booking.t) (s e : Z) :
  apply_update bu b s e = Ok b' ->
  Booking.id b' = Booking.id b /\ Booking.user_id b' = Booking.user_id b
  /\ Booking.start_time b' = s /\ Booking.end_time b' = e.
Proof.
  unfold apply_update. intros H.
  destruct (bu_room_id bu) as [[r|]|]; simpl in H; try discriminate;
    injection H as <-; simpl; auto.
Qed.

Lemma apply_update_err (bu : BookingUpdate) (b : Booking.t) (s e : Z) (x : error) :
  apply_update bu b s e = Err x -> x = IntegrityError "bookings.room_id".
Proof.
  unfold apply_update. intros H.
  destruct (bu_room_id bu) as [[r|]|]; simpl in H; congruence.
Qed.

Lemma wf_replace (d : db) (i : Z) (b : Booking.t) :
  wf d -> valid_start_time (Booking.start_time b) = true ->
  Booking.end_time b = Booking.start_time b + HOUR ->
  wf (replace_booking d i b).
Proof.
  intros [Hr Hb] Hs He. split; [exact Hr|]. simpl. intros x Hin.
  apply in_map_iff in Hin as [y [<- Hy]].
  destruct (Booking.id y =? i); [now split | now apply Hb].
Qed.

Ltac destruct_matches_in H :=
  repeat match type of H with
  | context [match ?x with _ => _ end] => let E := fresh "E" in destruct x eqn:E
  end.

Lemma wf_update (mapped : bool) (i : Z) (bu : BookingUpdate) (d d' : db)
    (u : user) (res : result Booking.t) :
  wf d -> update_booking mapped i bu d u = (res, d') -> wf d'.
Proof.
  intros Hwf H. unfold update_booking, update_booking_traced in H.
  destruct (find_booking d i) as [b|]; [|inv_pair H; exact Hwf].
  destruct (negb _); [inv_pair H; exact Hwf|].
  set (ns := match truthy_start_time (bu_start_time bu) with
             | Some t => t | None => Booking.start_time b end) in H.
  destruct (misaligned ns) eqn:Hm; [inv_pair H; exact Hwf|].
  destruct_matches_in H; simpl in H; inv_pair H; try exact Hwf;
  match goal with
  | Ha : apply_update _ _ _ _ = Ok _ |- _ =>
    apply apply_update_ok in Ha as (_ & _ & Hs & He);
    apply wf_replace; [exact Hwf | rewrite Hs; now apply valid_of_not_misaligned | lia]
  end.
Qed.

Lemma wf_filter_bookings (d : db) (f : Booking.t -> bool) :
  wf d -> wf (mkdb (rooms d) (filter f (bookings d))).
Proof.
  intros [Hr Hb]. split; [exact Hr|]. simpl. intros b Hin.
  apply filter_In in Hin as [Hin _]. now apply Hb.
Qed.

Lemma wf_handle (mapped : bool) (rq : requester) (ep : endpoint) (d d' : db)
    (res : result response) :
  wf d -> handle mapped rq ep d = (res, d') -> wf d'.
Proof.
  intros Hwf H.
  destruct ep; cbn [handle] in H;
    try (inv_pair H; exact Hwf);
    (unfold with_user in H; destruct (get_current_user rq) as [u|e0];
       [|inv_pair H; exact Hwf]);
    try (inv_pair H; exact Hwf);
    unfold map_outcome in H.
  - destruct (create_booking mapped booking d u) as [r0 d0] eqn:E.
    inv_pair H. eapply wf_create; eassumption.
  - destruct (update_booking mapped booking_id booking_update d u) as [r0 d0] eqn:E.
    inv_pair H. eapply wf_update; eassumption.
  - destruct (delete_booking booking_id d u) as [r0 d0] eqn:E.
    inv_pair H. unfold delete_booking in E.
    destruct (find_booking d booking_id); [|inv_pair E; exact Hwf].
    destruct (negb _); inv_pair E; [exact Hwf | now apply wf_filter_bookings].
  - destruct (optimize_booking mapped booking d u) as [r0 d0] eqn:E.
    inv_pair H. unfold optimize_booking in E. destruct_matches_in E; inv_pair E; exact Hwf.
  - unfold create_room in H. destruct (negb _); inv_pair H; [exact Hwf|].
    destruct Hwf as [Hr Hb]. split; [|exact Hb]. simpl.
    intros r Hin. apply in_app_iff in Hin as [Hin | [<- | []]];
      [now apply Hr | apply next_rowid_pos].
  - destruct (update_room room_id room_update d) as [r0 d0] eqn:E.
    inv_pair H. unfold update_room in E.
    destruct (find_room d room_id) as [room|] eqn:Hf; [|inv_pair E; exact Hwf].
    apply find_room_some in Hf as [Hin Hid].
    destruct_matches_in E; inv_pair E; try exact Hwf;
      destruct Hwf as [Hr Hb]; split; try exact Hb; simpl; intros x Hx;
      apply in_map_iff in Hx as [y [<- Hy]];
      destruct (Room.id y =? room_id); simpl; apply Hr; assumption.
  - destruct (delete_room room_id d) as [r0 d0] eqn:E.
    inv_pair H. unfold delete_room in E.
    destruct (find_room d room_id); inv_pair E; [|exact Hwf].
    destruct Hwf as [Hr Hb]. split; simpl.
    + intros r Hin. apply filter_In in Hin as [Hin _]. now apply Hr.
    + intros b Hin. apply filter_In in Hin as [Hin _]. now apply Hb.
Qed.

Lemma wf_reachable (mapped : bool) (d : db) : reachable mapped d -> wf d.
Proof.
  induction 1 as [|d rq ep res d' _ IH _ H].
  - split; simpl; intros _ [].
  - eapply wf_handle; eassumption.
Qed.

Lemma reachable_db_0900 : reachable true db_0900.
Proof.
  apply reach_step with (d := mkdb [room10] []) (rq := Bearer alice)
    (ep := PostBooking (mkBookingCreate 1 t0900 (Some "Team Meeting") 5))
    (res := Ok (RBooking (Booking.mk 1 1 (uid alice) t0900 (t0900 + HOUR) (Some "Team Meeting")))).
  - apply reach_step with (d := mkdb [] []) (rq := Bearer alice)
      (ep := PostRoom (mkRoomCreate "Test Room" 10 (Some "Floor 1")))
      (res := Ok (RRoom room10)); [apply reach_init | reflexivity | reflexivity].
  - reflexivity.
  - reflexivity.
Qed.

Lemma wf_booking_of (mapped : bool) (d : db) (i : Z) (b : Booking.t) :
  reachable mapped d -> find_booking d i = Some b ->
  misaligned (Booking.start_time b) = false
  /\ Booking.end_time b = Booking.start_time b + HOUR.
Proof.
  intros Hr Hf. apply wf_reachable in Hr as [_ Hb].
  apply find_booking_some in Hf as [Hin _]. apply Hb in Hin as [Hv He].
  split; [|exact He]. unfold valid_start_time in Hv. now destruct (misaligned _).
Qed.

(** ** C6: an update of the purpose alone *)

(** C6 (as amended). An update by its owner that sets only [purpose] on a
    booking of a reachable database succeeds whatever the other bookings
    are; the only check it runs is the start-time alignment check on the
    unchanged start time (no room lookup, no overlap query), and it keeps
    the booking's room_id, user_id, start_time and end_time. *)
Theorem update_purpose_only (mapped : bool) (d : db) (booking_id : Z)
    (b : Booking.t) (p : option string) (current_user : user) :
  reachable mapped d ->
  find_booking d booking_id = Some b ->
  Booking.user_id b = uid current_user ->
  let b' := Booking.mk (Booking.id b) (Booking.room_id b) (Booking.user_id b)
              (Booking.start_time b) (Booking.end_time b) p in
  update_booking_traced mapped booking_id (mkBookingUpdate None None (Some p))
    d current_user
  = ((Ok b', replace_booking d booking_id b'), [GValidate (Booking.start_time b)]).
Proof.
  intros Hr Hf Hu b'.
  destruct (wf_booking_of mapped d booking_id b Hr Hf) as [Hm He].
  unfold update_booking_traced. rewrite Hf, Hu, Z.eqb_refl. simpl.
  rewrite Hm. unfold b'. rewrite He. reflexivity.
Qed.

Lemma update_purpose_only_witness :
  reachable true db_0900 /\
  update_booking_traced true 1 (mkBookingUpdate None None (Some (Some "Retro")))
    db_0900 alice
  = ((Ok (Booking.mk 1 1 1 t0900 (t0900 + HOUR) (Some "Retro")),
      replace_booking db_0900 1 (Booking.mk 1 1 1 t0900 (t0900 + HOUR) (Some "Retro"))),
     [GValidate t0900]).
Proof.
  split; [exact reachable_db_0900|].
  exact (update_purpose_only true db_0900 1
           (Booking.mk 1 1 1 t0900 (t0900 + HOUR) (Some "Team Meeting"))
           (Some "Retro") alice reachable_db_0900 eq_refl eq_refl).
Defined.

(** C6 as stated fails: the purpose-only update runs the start-time
    validator (line 173 of [bookings.py]). *)
Lemma update_purpose_only_runs_validator :
  In (GValidate t0900)
     (snd (update_booking_traced models_booking_end_time_mapped 1
             (mkBookingUpdate None None (Some (Some "Retro"))) db_0900 alice)).
Proof. vm_compute. left. reflexivity. Qed.

(** ** C7: the capacity check of [create_booking] *)

(** C7. A create request whose room exists with a capacity below
    [required_capacity] fails with the capacity error and leaves the
    database unchanged. *)
Theorem create_capacity_rejected (mapped : bool) (booking : BookingCreate)
    (d : db) (current_user : user) (room : Room.t) :
  find_room d (bc_room_id booking) = Some room ->
  Room.capacity room < bc_required_capacity booking ->
  create_booking mapped booking d current_user = (Err CAPACITY_INSUFFICIENT, d).
Proof.
  intros Hf Hc. unfold create_booking. rewrite Hf.
  apply Z.ltb_lt in Hc. now rewrite Hc.
Qed.

Lemma create_capacity_rejected_witness :
  create_booking models_booking_end_time_mapped (mkBookingCreate 1 t1000 None 20)
    db_0900 bob = (Err CAPACITY_INSUFFICIENT, db_0900).
Proof.
  apply (create_capacity_rejected _ _ _ _ room10); [reflexivity | vm_compute; reflexivity].
Defined.

(** ** C8: a room change on update *)

Lemma update_never_capacity_error (mapped : bool) (booking_id : Z)
    (bu : BookingUpdate) (d : db) (current_user : user) :
  fst (update_booking mapped booking_id bu d current_user) <> Err CAPACITY_INSUFFICIENT.
Proof.
  unfold update_booking, update_booking_traced.
  destruct (find_booking d booking_id) as [b|]; [|discriminate].
  destruct (negb _); [discriminate|].
  destruct (misaligned _); [discriminate|].
  unfold overlapping, apply_update.
  destruct mapped, bu as [[[r|]|] st p]; simpl.
  all: repeat match goal with
  | |- context [match ?x with _ => _ end] => destruct x
  end; simpl; discriminate.
Qed.

(** C8. An update by the owner that moves a booking of a reachable
    database to an existing room issues the overlap query for that new
    room (excluding the booking itself), and the update never ends in the
    capacity error: no capacity check is made. *)
Theorem update_room_change_rechecks_overlap_only (mapped : bool) (d : db)
    (booking_id : Z) (bu : BookingUpdate) (current_user : user)
    (b : Booking.t) (r : Z) (room : Room.t) :
  reachable mapped d ->
  valid_BookingUpdate bu = true ->
  find_booking d booking_id = Some b ->
  Booking.user_id b = uid current_user ->
  bu_room_id bu = Some (Some r) ->
  find_room d r = Some room ->
  let new_start := match truthy_start_time (bu_start_time bu) with
                   | Some t => t | None => Booking.start_time b end in
  In (GOverlap r booking_id new_start (new_start + HOUR))
     (snd (update_booking_traced mapped booking_id bu d current_user))
  /\ fst (update_booking mapped booking_id bu d current_user) <> Err CAPACITY_INSUFFICIENT.
Proof.
  intros Hr Hv Hf Hu Hroom Hfr new_start.
  split; [|apply update_never_capacity_error].
  assert (Hr0 : r <> 0).
  { apply wf_reachable in Hr as [Hrooms _].
    apply find_room_some in Hfr as [Hin Hid]. apply Hrooms in Hin. lia. }
  assert (Hm : misaligned new_start = false).
  { unfold new_start. unfold valid_BookingUpdate in Hv.
    destruct (bu_start_time bu) as [[t|]|]; simpl;
      try exact (proj1 (wf_booking_of mapped d booking_id b Hr Hf)).
    unfold valid_start_time in Hv. now destruct (misaligned t). }
  unfold update_booking_traced. rewrite Hf, Hu, Z.eqb_refl. simpl.
  fold new_start. rewrite Hm, Hroom. simpl.
  apply Z.eqb_neq in Hr0. rewrite Hr0, Hfr.
  destruct (overlapping _ _ _ _ _ _) as [[?|]|?]; simpl; auto 6.
  destruct (apply_update _ _ _ _); simpl; auto 6.
Qed.

Lemma update_room_change_rechecks_overlap_only_witness :
  In (GOverlap 2 1 t0900 (t0900 + HOUR))
     (snd (update_booking_traced true 1 (mkBookingUpdate (Some (Some 2)) None None)
             (mkdb (rooms db_0900 ++ [Room.mk 2 "Small" 2 None]) (bookings db_0900))
             alice))
  /\ fst (update_booking true 1 (mkBookingUpdate (Some (Some 2)) None None)
             (mkdb (rooms db_0900 ++ [Room.mk 2 "Small" 2 None]) (bookings db_0900))
             alice) <> Err CAPACITY_INSUFFICIENT.
Proof.
  refine (update_room_change_rechecks_overlap_only true
            (mkdb (rooms db_0900 ++ [Room.mk 2 "Small" 2 None]) (bookings db_0900)) 1
            (mkBookingUpdate (Some (Some 2)) None None) alice
            (Booking.mk 1 1 1 t0900 (t0900 + HOUR) (Some "Team Meeting")) 2
            (Room.mk 2 "Small" 2 None) _ eq_refl eq_refl eq_refl eq_refl eq_refl).
  apply reach_step with (d := db_0900) (rq := Bearer alice)
    (ep := PostRoom (mkRoomCreate "Small" 2 None))
    (res := Ok (RRoom (Room.mk 2 "Small" 2 None)));
    [exact reachable_db_0900 | reflexivity | reflexivity].
Defined.

(** ** C9: delete *)

(** C9. Deleting an existing booking as another user fails with the
    authorization error (not the not-found error) and changes nothing;
    deleting it as its owner succeeds, after which [get_booking] of the
    same id answers not-found. *)
Theorem delete_owner_only (d : db) (booking_id : Z) (b : Booking.t)
    (owner other : user) :
  find_booking d booking_id = Some b ->
  Booking.user_id b = uid owner ->
  uid other <> Booking.user_id b ->
  (delete_booking booking_id d other = (Err NOT_AUTH_DELETE, d)
   /\ NOT_AUTH_DELETE <> BOOKING_NOT_FOUND)
  /\ exists d', delete_booking booking_id d owner = (Ok tt, d')
               /\ get_booking booking_id d' = Err BOOKING_NOT_FOUND.
Proof.
  intros Hf Ho Hother. unfold delete_booking. rewrite Hf.
  split.
  - split; [|discriminate].
    apply not_eq_sym, Z.eqb_neq in Hother. now rewrite Hother.
  - rewrite Ho, Z.eqb_refl. simpl. eexists. split; [reflexivity|].
    unfold get_booking, find_booking. simpl.
    replace (find _ _) with (@None Booking.t); [reflexivity|].
    symmetry. apply find_none_iff. intros x Hx.
    apply filter_In in Hx as [_ Hx]. now destruct (Booking.id x =? booking_id).
Qed.

Lemma delete_owner_only_witness :
  (delete_booking 1 db_0900 bob = (Err NOT_AUTH_DELETE, db_0900)
   /\ NOT_AUTH_DELETE <> BOOKING_NOT_FOUND)
  /\ exists d', delete_booking 1 db_0900 alice = (Ok tt, d')
               /\ get_booking 1 d' = Err BOOKING_NOT_FOUND.
Proof.
  apply (delete_owner_only db_0900 1 (Booking.mk 1 1 1 t0900 (t0900 + HOUR) (Some "Team Meeting"))
           alice bob); [reflexivity | reflexivity | discriminate].
Defined.

(** ** C10: reads need no authentication *)




(** ** The slot loop of [get_available_slots] *)

Lemma fill_S (f : nat) (cur dur limit : Z) :
  fill (S f) cur dur limit
  = if cur + dur <=? limit then
      let '(slots, c) := fill f (cur + dur) dur limit in ((cur, cur + dur) :: slots, c)
    else ([], cur).
Proof. reflexivity. Qed.

(** Fuel beyond [limit - current_time] changes nothing: [while_slots]
    computes the Python loop. *)
Lemma fill_fuel_enough (fuel : nat) (cur dur limit : Z) :
  0 < dur -> (Z.to_nat (limit - cur) <= fuel)%nat ->
  fill (S fuel) cur dur limit = fill fuel cur dur limit.
Proof.
  intros Hd. revert cur. induction fuel as [|f IH]; intros cur Hf.
  - simpl. replace (cur + dur <=? limit) with false; [reflexivity|].
    symmetry. apply Z.leb_gt. lia.
  - rewrite (fill_S (S f) cur), (fill_S f cur).
    destruct (cur + dur <=? limit) eqn:E; [|reflexivity].
    apply Z.leb_le in E. rewrite IH; [reflexivity|lia].
Qed.

Lemma fill_spec (n fuel : nat) (cur dur limit : Z) :
  0 < dur -> (n <= fuel)%nat ->
  cur + Z.of_nat n * dur <= limit -> limit < cur + (Z.of_nat n + 1) * dur ->
  fill fuel cur dur limit = (slots_from cur dur n, cur + Z.of_nat n * dur).
Proof.
  intros Hd. revert fuel cur. induction n as [|m IH]; intros fuel cur Hf Hlo Hhi.
  - destruct fuel as [|f]; [simpl; f_equal; lia|]. rewrite fill_S.
    replace (cur + dur <=? limit) with false; [f_equal; lia|].
    symmetry. apply Z.leb_gt. lia.
  - destruct fuel as [|f]; [lia|]. rewrite fill_S.
    replace (cur + dur <=? limit) with true by (symmetry; apply Z.leb_le; nia).
    rewrite (IH f (cur + dur)) by nia. f_equal. nia.
Qed.

Lemma slots_from_app (cur dur : Z) (n m : nat) :
  slots_from cur dur (n + m) = slots_from cur dur n ++ slots_from (cur + Z.of_nat n * dur) dur m.
Proof.
  revert cur. induction n as [|n IH]; intros cur.
  - replace (cur + Z.of_nat 0 * dur) with cur by lia. reflexivity.
  - cbn [Nat.add slots_from app]. rewrite IH.
    replace (cur + dur + Z.of_nat n * dur) with (cur + Z.of_nat (S n) * dur) by nia.
    reflexivity.
Qed.

Lemma slots_from_length (cur dur : Z) (n : nat) : List.length (slots_from cur dur n) = n.
Proof. revert cur. induction n; intros cur; simpl; auto. Qed.

Lemma while_slots_window (cur : Z) (n : nat) :
  while_slots cur HOUR (cur + Z.of_nat n * HOUR)
  = (slots_from cur HOUR n, cur + Z.of_nat n * HOUR).
Proof.
  unfold while_slots. apply fill_spec; unfold HOUR; lia.
Qed.

Lemma filter_single_room (room_id ds de : Z) (l : list Booking.t) (b : Booking.t) :
  filter (fun x => Booking.room_id x =? room_id) l = [b] ->
  ds <= Booking.start_time b -> Booking.end_time b <= de ->
  filter (fun x => (Booking.room_id x =? room_id) && (ds <=? Booking.start_time x)
                   && (Booking.end_time x <=? de)) l = [b].
Proof.
  intros H Hs He. induction l as [|x l IH]; simpl in *; [discriminate|].
  destruct (Booking.room_id x =? room_id) eqn:Er; simpl.
  - injection H as Hx H0. subst x.
    rewrite (proj2 (Z.leb_le _ _) Hs), (proj2 (Z.leb_le _ _) He). simpl. f_equal.
    clear -H0. induction l as [|y l IH]; simpl; [reflexivity|].
    simpl in H0. destruct (Booking.room_id y =? room_id); simpl in *;
      [discriminate | exact (IH H0)].
  - exact (IH H).
Qed.

Lemma filter_all_false {A} (f : A -> bool) (l : list A) :
  (forall x, In x l -> f x = false) -> filter f l = [].
Proof.
  induction l as [|a l IH]; simpl; intros H; [reflexivity|].
  rewrite (H a (or_introl eq_refl)). apply IH. intros x Hx. apply H. now right.
Qed.

Lemma firstn_slots (k m : nat) (cur dur : Z) :
  firstn k (slots_from cur dur (k + m)) = slots_from cur dur k.
Proof.
  revert cur. induction k as [|k IH]; intros cur; [reflexivity|].
  cbn [Nat.add slots_from firstn]. now rewrite IH.
Qed.

Lemma skipn_slots (k m : nat) (cur dur : Z) :
  skipn k (slots_from cur dur (k + m)) = slots_from (cur + Z.of_nat k * dur) dur m.
Proof.
  revert cur. induction k as [|k IH]; intros cur.
  - replace (cur + Z.of_nat 0 * dur) with cur by lia. reflexivity.
  - cbn [Nat.add slots_from skipn]. rewrite IH. f_equal. nia.
Qed.

(** [get_available_slots] past its guards. *)
Lemma get_available_slots_body (d : db) (room_id date duration : Z) (room : Room.t) :
  0 < duration -> find_room d room_id = Some room ->
  get_available_slots true room_id date duration d
  = let day_start := date * 86400 + 8 * HOUR in
    let day_end := day_start + 10 * HOUR in
    let bks := order_by_start
      (filter (fun b => (Booking.room_id b =? room_id)
                        && (day_start <=? Booking.start_time b)
                        && (Booking.end_time b <=? day_end)) (bookings d)) in
    let '(slots, current_time) := sweep bks day_start (duration * 60) in
    let '(slots', _) := while_slots current_time (duration * 60) day_end in
    Ok (slots ++ slots').
Proof.
  intros Hd Hf. unfold get_available_slots.
  rewrite (proj2 (Z.leb_gt _ _) Hd), Hf. reflexivity.
Qed.

(** ** C5: the availability enumerator *)

(** C5 (as amended). With the ORM class mapping [end_time] as the handler
    assumes, [get_available_slots] with [duration = 60] for an existing
    room enumerates the fixed 08:00-18:00 window: with no booking in the
    room it returns the 10 hourly slots in ascending order; with a single
    booking in the room covering the consecutive slots [k] and [k+1] of
    that grid it returns the same list with exactly those two removed and
    the rest in order. *)
Theorem available_slots_fixed_window (mapped : bool) (d : db)
    (room_id date : Z) (room : Room.t) :
  mapped = true ->
  find_room d room_id = Some room ->
  let day_start := date * 86400 + 8 * HOUR in
  let all_slots := slots_from day_start HOUR 10 in
  ((forall b, In b (bookings d) -> Booking.room_id b <> room_id) ->
   get_available_slots mapped room_id date 60 d = Ok all_slots
   /\ List.length all_slots = 10%nat)
  /\ (forall (k : nat) (b : Booking.t), (k <= 8)%nat ->
      filter (fun x => Booking.room_id x =? room_id) (bookings d) = [b] ->
      Booking.start_time b = day_start + Z.of_nat k * HOUR ->
      Booking.end_time b = day_start + (Z.of_nat k + 2) * HOUR ->
      get_available_slots mapped room_id date 60 d
      = Ok (firstn k all_slots ++ skipn (k + 2) all_slots)).
Proof.
  intros Hm Hf ds all_slots. subst mapped.
  rewrite (get_available_slots_body d room_id date 60 room) by (reflexivity || exact Hf).
  cbv zeta. fold ds.
  replace (60 * 60) with HOUR by reflexivity.
  split.
  - intros Hnone.
    rewrite filter_all_false.
    + cbn [order_by_start fold_right sweep].
      replace (ds + 10 * HOUR) with (ds + Z.of_nat 10 * HOUR) by reflexivity.
      rewrite while_slots_window. split; [reflexivity | apply slots_from_length].
    + intros x Hx. destruct (Booking.room_id x =? room_id) eqn:E; [|reflexivity].
      apply Z.eqb_eq in E. exfalso. exact (Hnone x Hx E).
  - intros k b Hk Hone Hs He.
    rewrite (filter_single_room room_id ds (ds + 10 * HOUR) _ b Hone) by (unfold HOUR in *; nia).
    cbn [order_by_start fold_right insert_by_start sweep].
    rewrite Hs, while_slots_window.
    rewrite Z.max_r by (rewrite He; unfold HOUR; nia). rewrite He.
    replace (ds + 10 * HOUR)
      with ((ds + (Z.of_nat k + 2) * HOUR) + Z.of_nat (8 - k) * HOUR)
      by (rewrite Nat2Z.inj_sub by lia; unfold HOUR; nia).
    rewrite while_slots_window. rewrite app_nil_r.
    assert (E1 : firstn k all_slots = slots_from ds HOUR k).
    { unfold all_slots. replace 10%nat with (k + (10 - k))%nat by lia.
      apply firstn_slots. }
    assert (E2 : skipn (k + 2) all_slots
                 = slots_from (ds + (Z.of_nat k + 2) * HOUR) HOUR (8 - k)).
    { unfold all_slots. replace 10%nat with ((k + 2) + (8 - k))%nat by lia.
      rewrite skipn_slots. f_equal. lia. }
    now rewrite E1, E2.
Qed.

Lemma available_slots_fixed_window_witness :
  get_available_slots true 1 day0 60 (mkdb [room10] [])
  = Ok (slots_from (day0 * 86400 + 8 * HOUR) HOUR 10).
Proof.
  refine (proj1 (proj1 (available_slots_fixed_window true (mkdb [room10] []) 1 day0
                          room10 eq_refl eq_refl) _)).
  intros b [].
Defined.

(** C5 as stated fails: there is no 8-hour window; an empty room gets the
    10 slots of 08:00-18:00 (and the repository's ORM class, without
    [end_time], makes the query raise). *)
Lemma available_slots_not_eight :
  get_available_slots true 1 day0 60 (mkdb [room10] [])
    = Ok (slots_from (day0 * 86400 + 8 * HOUR) HOUR 10)
  /\ List.length (slots_from (day0 * 86400 + 8 * HOUR) HOUR 10) <> 8%nat
  /\ get_available_slots models_booking_end_time_mapped 1 day0 60 (mkdb [room10] [])
    = Err (AttributeError "end_time").
Proof.
  split; [vm_compute; reflexivity|]. split; [simpl; discriminate | reflexivity].
Qed.

(** ** C1: conflict detection on create and update *)

Lemma overlap_row_spec (room_id : Z) (exclude : option Z) (s e : Z) (b : Booking.t) :
  overlap_row room_id exclude s e b = true <->
  Booking.room_id b = room_id
  /\ (forall i, exclude = Some i -> Booking.id b <> i)
  /\ overlaps (Booking.start_time b) (Booking.end_time b) s e.
Proof.
  unfold overlap_row, overlaps.
  rewrite !andb_true_iff, Z.eqb_eq, Z.ltb_lt, Z.ltb_lt.
  destruct exclude as [i|]; simpl.
  - rewrite negb_true_iff, Z.eqb_neq. split.
    + intros [[[Hr Hi] Hs] He]. repeat split; try assumption. congruence.
    + intros [Hr [Hi [Hs He]]]. repeat split; try assumption. now apply Hi.
  - split.
    + intros [[[Hr _] Hs] He]. repeat split; try assumption. discriminate.
    + intros [Hr [_ [Hs He]]]. repeat split; assumption.
Qed.

Lemma find_overlap_iff (room_id : Z) (exclude : option Z) (s e : Z) (l : list Booking.t) :
  (exists x, find (overlap_row room_id exclude s e) l = Some x) <->
  exists b, In b l /\ overlap_row room_id exclude s e b = true.
Proof.
  split.
  - intros [x Hx]. apply find_some in Hx. now exists x.
  - intros [b [Hin Hb]].
    destruct (find (overlap_row room_id exclude s e) l) as [x|] eqn:E; [now exists x|].
    apply find_none_iff with (x := b) in E; [congruence | exact Hin].
Qed.

(** C1 (as amended). With the ORM class mapping [end_time] as the
    routers assume: a create request for an existing room of sufficient
    capacity with an hour-aligned start, and an update by the owner that
    gives a (non-zero) [room_id] or a [start_time], with an aligned new
    start and an existing target room, are rejected as a conflict exactly
    when some booking of the target room (other than the one updated)
    intersects [[start, start+1h)] in the half-open sense; a booking that
    only touches the candidate at either end never passes the filter. *)
Theorem conflict_iff_overlap (mapped : bool) (d : db) :
  mapped = true ->
  (forall (booking : BookingCreate) (current_user : user) (room : Room.t),
     find_room d (bc_room_id booking) = Some room ->
     bc_required_capacity booking <= Room.capacity room ->
     valid_start_time (bc_start_time booking) = true ->
     (fst (create_booking mapped booking d current_user) = Err ALREADY_BOOKED <->
      exists b, In b (bookings d) /\ Booking.room_id b = bc_room_id booking
        /\ overlaps (Booking.start_time b) (Booking.end_time b)
                    (bc_start_time booking) (bc_start_time booking + HOUR)))
  /\ (forall (booking_id : Z) (bu : BookingUpdate) (current_user : user)
             (b : Booking.t) (room : Room.t),
     find_booking d booking_id = Some b ->
     Booking.user_id b = uid current_user ->
     bu_room_id bu <> Some (Some 0) ->
     (truthy_room_id (bu_room_id bu) <> None \/ truthy_start_time (bu_start_time bu) <> None) ->
     valid_start_time (effective_start bu b) = true ->
     find_room d (effective_room bu b) = Some room ->
     (fst (update_booking mapped booking_id bu d current_user) = Err ALREADY_BOOKED <->
      exists b', In b' (bookings d) /\ Booking.room_id b' = effective_room bu b
        /\ Booking.id b' <> booking_id
        /\ overlaps (Booking.start_time b') (Booking.end_time b')
                    (effective_start bu b) (effective_start bu b + HOUR)))
  /\ (forall (room_id : Z) (exclude : option Z) (s : Z) (b : Booking.t),
     Booking.end_time b = s \/ Booking.start_time b = s + HOUR ->
     overlap_row room_id exclude s (s + HOUR) b = false).
Proof.
  intros ->. split; [|split].
  - intros booking u room Hf Hc Hv.
    unfold create_booking. rewrite Hf.
    rewrite (proj2 (Z.ltb_ge _ _) Hc).
    unfold valid_start_time in Hv. destruct (misaligned _); [discriminate|].
    unfold overlapping.
    destruct (find _ _) as [x|] eqn:E; simpl.
    + split; [intros _|reflexivity].
      assert (Hex : exists x, find (overlap_row (bc_room_id booking) None
                    (bc_start_time booking) (bc_start_time booking + HOUR)) (bookings d) = Some x)
        by (now exists x).
      apply find_overlap_iff in Hex as [b [Hin Hb]].
      apply overlap_row_spec in Hb as [Hr [_ Ho]]. now exists b.
    + split; [discriminate|]. intros [b [Hin [Hr Ho]]].
      apply find_none_iff with (x := b) in E; [|exact Hin].
      assert (overlap_row (bc_room_id booking) None (bc_start_time booking)
                (bc_start_time booking + HOUR) b = true) as Hb
        by (apply overlap_row_spec; split; [exact Hr | split; [intros ? Hn; discriminate Hn | exact Ho]]).
      congruence.
  - intros booking_id bu u b room Hf Hu H0 Hgiven Hv Hroom.
    unfold update_booking, update_booking_traced. rewrite Hf, Hu, Z.eqb_refl. simpl.
    fold (effective_start bu b).
    unfold valid_start_time in Hv. destruct (misaligned _); [discriminate|].
    unfold effective_room in Hroom |- *.
    destruct (truthy_room_id (bu_room_id bu)) as [r|] eqn:Er;
      [| destruct (truthy_start_time (bu_start_time bu)) as [t|];
         [| destruct Hgiven as [Hg|Hg]; now contradiction Hg]];
      rewrite Hroom; unfold overlapping;
      (destruct (find _ _) as [x|] eqn:E; simpl;
       [ split; [intros _|reflexivity];
         match type of E with find ?f ?l = Some ?x =>
           assert (Hex : exists y, find f l = Some y) by (now exists x) end;
         apply find_overlap_iff in Hex as [b' [Hin Hb]];
         apply overlap_row_spec in Hb as [Hr [Hi Ho]];
         exists b'; split; [exact Hin | split; [exact Hr | split; [now apply Hi | exact Ho]]]
       | split;
         [ intros Hc; destruct (apply_update _ _ _ _) eqn:Ea; simpl in Hc;
           [ discriminate Hc | apply apply_update_err in Ea; subst; discriminate Hc ]
         | intros [b' [Hin [Hr [Hi Ho]]]];
           match type of E with find ?f ?l = None =>
             apply find_none_iff with (x := b') in E; [|exact Hin];
             assert (f b' = true) by (apply overlap_row_spec; split; [exact Hr | split;
                                      [intros i Hi'; injection Hi' as <-; exact Hi | exact Ho]])
           end; congruence ] ]).
  - intros room_id exclude s b Hb. unfold overlap_row.
    destruct Hb as [Hb|Hb]; rewrite Hb;
      [rewrite (proj2 (Z.ltb_ge s s) (Z.le_refl s)) | rewrite Z.ltb_irrefl];
      now rewrite !andb_false_r.
Qed.

Lemma conflict_iff_overlap_witness :
  fst (create_booking true (mkBookingCreate 1 t1000 None 5) db_0900 bob) = Err ALREADY_BOOKED
  <-> exists b, In b (bookings db_0900) /\ Booking.room_id b = 1
        /\ overlaps (Booking.start_time b) (Booking.end_time b) t1000 (t1000 + HOUR).
Proof.
  exact (proj1 (conflict_iff_overlap true db_0900 eq_refl)
           (mkBookingCreate 1 t1000 None 5) bob room10 eq_refl
           ltac:(simpl; lia) eq_refl).
Defined.

(** C1 as stated fails: the capacity check comes first, so a request
    for a too-small room is refused for capacity even when it overlaps a
    booking. *)
Lemma create_capacity_checked_before_overlap :
  ~ (fst (create_booking models_booking_end_time_mapped
            (mkBookingCreate 1 t0900 None 20) db_0900 bob) = Err ALREADY_BOOKED
     <-> exists b, In b (bookings db_0900) /\ Booking.room_id b = 1
           /\ overlaps (Booking.start_time b) (Booking.end_time b) t0900 (t0900 + HOUR)).
Proof.
  intros [_ H].
  assert (Hex : exists b, In b (bookings db_0900) /\ Booking.room_id b = 1
           /\ overlaps (Booking.start_time b) (Booking.end_time b) t0900 (t0900 + HOUR)).
  { exists (Booking.mk 1 1 1 t0900 (t0900 + HOUR) (Some "Team Meeting")).
    split; [left; reflexivity|]. split; [reflexivity|].
    unfold overlaps; simpl; unfold t0900, day0, HOUR; lia. }
  specialize (H Hex). vm_compute in H. discriminate H.
Qed.

(** ** C2 and C3: the scheduler's conflict filter *)

(** X12. Under one-hour bookings the scheduler's start-only filter is the
    half-open test plus the bookings that end exactly when the candidate
    starts. *)
Lemma scheduler_conflict_iff (room_id s : Z) (b : Booking.t) :
  Booking.end_time b = Booking.start_time b + HOUR ->
  scheduler_conflict room_id s (s + HOUR) b = true <->
  Booking.room_id b = room_id
  /\ (overlaps (Booking.start_time b) (Booking.end_time b) s (s + HOUR)
      \/ Booking.end_time b = s).
Proof.
  intros He. unfold scheduler_conflict, overlaps.
  rewrite !andb_true_iff, Z.eqb_eq, Z.ltb_lt, Z.leb_le, He.
  unfold HOUR. split.
  - intros [[Hr Hlt] Hle]. split; [exact Hr|]. lia.
  - intros [Hr H]. split; [split; [exact Hr|]|]; lia.
Qed.

Lemma select_room_none (d : db) (s e : Z) (l : list Room.t) (opt : option Room.t) :
  select_room d s e l opt (option_map Room.capacity opt) = None ->
  opt = None /\ forall r, In r l -> conflicts d (Room.id r) s e <> 0%nat.
Proof.
  revert opt. induction l as [|room rest IH]; intros opt H; simpl in H.
  - split; [exact H | intros r []].
  - destruct ((conflicts d (Room.id room) s e =? 0)%nat
              && lt_occupancy (Room.capacity room) (option_map Room.capacity opt)) eqn:C.
    + apply (IH (Some room)) in H as [H _]. discriminate H.
    + apply IH in H as [-> Hrest]. split; [reflexivity|].
      intros r [<- | Hr]; [|now apply Hrest].
      simpl in C. rewrite andb_true_r in C. now apply Nat.eqb_neq.
Qed.

Lemma select_room_some (d : db) (s e : Z) (l : list Room.t) (opt : option Room.t)
    (r : Room.t) :
  select_room d s e l opt (option_map Room.capacity opt) = Some r ->
  (opt = Some r \/ (In r l /\ conflicts d (Room.id r) s e = 0%nat))
  /\ (forall o, opt = Some o -> Room.capacity r <= Room.capacity o)
  /\ (forall r', In r' l -> conflicts d (Room.id r') s e = 0%nat ->
      Room.capacity r <= Room.capacity r').
Proof.
  revert opt. induction l as [|room rest IH]; intros opt H; simpl in H.
  - subst opt. split; [now left|]. split; [intros o Ho; injection Ho as ->; lia | intros ? []].
  - destruct ((conflicts d (Room.id room) s e =? 0)%nat
              && lt_occupancy (Room.capacity room) (option_map Room.capacity opt)) eqn:C.
    + apply andb_true_iff in C as [C0 Clt]. apply Nat.eqb_eq in C0.
      apply (IH (Some room)) in H as [Hwho [Hle Hmin]].
      specialize (Hle room eq_refl).
      split; [|split].
      * right. destruct Hwho as [Hw | [Hin Hc]].
        -- injection Hw as <-. split; [now left | exact C0].
        -- split; [now right | exact Hc].
      * intros o ->. simpl in Clt. apply Z.ltb_lt in Clt. lia.
      * intros r' [<- | Hr'] Hc; [exact Hle | now apply Hmin].
    + apply IH in H as [Hwho [Hle Hmin]].
      split; [|split; [exact Hle|]].
      * destruct Hwho as [Hw | [Hin Hc]]; [now left | right; split; [now right | exact Hc]].
      * intros r' [<- | Hr'] Hc; [|now apply Hmin].
        apply Nat.eqb_eq in Hc. rewrite Hc in C. simpl in C.
        destruct opt as [o|]; simpl in C; [|discriminate C].
        apply Z.ltb_ge in C. specialize (Hle o eq_refl). lia.
Qed.

(** X11. Everything [find_optimal_room] promises, relative to its own conflict
    filter: a returned room has enough capacity, no counted conflict and
    the least capacity among such rooms; [None] means there is none. *)
Lemma find_optimal_room_sound (d : db) (s e required : Z) :
  misaligned s = false ->
  (forall room, find_optimal_room d s e required = Ok (Some room) ->
     In room (rooms d) /\ required <= Room.capacity room
     /\ conflicts d (Room.id room) s e = 0%nat
     /\ forall r', In r' (rooms d) -> required <= Room.capacity r' ->
        conflicts d (Room.id r') s e = 0%nat -> Room.capacity room <= Room.capacity r')
  /\ (find_optimal_room d s e required = Ok None ->
      forall r', In r' (rooms d) -> required <= Room.capacity r' ->
      conflicts d (Room.id r') s e <> 0%nat).
Proof.
  intros Hm. unfold find_optimal_room. rewrite Hm. split.
  - intros room H. injection H as H.
    apply (select_room_some d s e _ None) in H as [[Hw | [Hin Hc]] [_ Hmin]];
      [discriminate Hw|].
    apply filter_In in Hin as [Hin Hcap]. apply Z.leb_le in Hcap.
    repeat split; try assumption.
    intros r' Hr' Hcap' Hc'. apply Hmin; [|exact Hc'].
    apply filter_In. split; [exact Hr' | now apply Z.leb_le].
  - intros H. injection H as H.
    apply (select_room_none d s e _ None) in H as [_ Hnone].
    intros r' Hr' Hcap'. apply Hnone, filter_In. split; [exact Hr' | now apply Z.leb_le].
Qed.

(** C2 (code defect): [find_optimal_room] reports no room for
    [10:00, 11:00) although room 1 has capacity 10 >= 5 and its only
    booking, [09:00, 10:00), does not overlap the candidate in the
    half-open sense; [create_booking] accepts that very request, while
    [optimize_booking] answers "No suitable room available". *)
Theorem find_optimal_room_misses_free_room :
  find_optimal_room db_0900 t1000 (t1000 + HOUR) 5 = Ok None
  /\ In room10 (rooms db_0900) /\ 5 <= Room.capacity room10
  /\ room_free db_0900 (Room.id room10) t1000 (t1000 + HOUR)
  /\ fst (create_booking true (mkBookingCreate 1 t1000 None 5) db_0900 bob)
     = Ok (Booking.mk 2 1 (uid bob) t1000 (t1000 + HOUR) None)
  /\ optimize_booking true (mkBookingOptimizeRequest t1000 5) db_0900 bob
     = (Err NO_SUITABLE_ROOM, db_0900).
Proof.
  split; [vm_compute; reflexivity|].
  split; [left; reflexivity|].
  split; [simpl; lia|].
  split.
  - intros b [<- | []] _. unfold overlaps; simpl; unfold t0900, t1000, day0, HOUR; lia.
  - split; vm_compute; reflexivity.
Qed.

(** C3 (code defect): on [db_0900], whose only booking [09:00, 10:00)
    lasts one hour, the scheduler's filter counts one conflict for room 1
    and [10:00, 11:00) while the two-boundary test of [create_booking]
    finds none. *)
Theorem scheduler_filter_counts_adjacent_booking :
  (forall b, In b (bookings db_0900) ->
     Booking.end_time b = Booking.start_time b + HOUR)
  /\ conflicts db_0900 1 t1000 (t1000 + HOUR) = 1%nat
  /\ overlapping true db_0900 1 None t1000 (t1000 + HOUR) = Ok None.
Proof.
  split; [intros b [<- | []]; reflexivity|].
  split; vm_compute; reflexivity.
Qed.

(** ** Further properties of the handlers *)

Lemma misaligned_false_iff (t : Z) : misaligned t = false <-> t mod 3600 = 0.
Proof.
  unfold misaligned, minute, second.
  rewrite orb_false_iff, !negb_false_iff, !Z.eqb_eq.
  rewrite <- (Z.mod_mod_divide t 3600 60) by (exists 60; reflexivity).
  pose proof (Z.mod_pos_bound t 3600 ltac:(lia)).
  set (r := t mod 3600) in *. clearbody r. split; [intros [H1 H2] | intros ->; split; reflexivity]. Z.div_mod_to_equations. lia.
Qed.

Lemma StronglySorted_app {A} (R : A -> A -> Prop) (l1 l2 : list A) :
  StronglySorted R l1 -> StronglySorted R l2 ->
  (forall x y, In x l1 -> In y l2 -> R x y) -> StronglySorted R (l1 ++ l2).
Proof.
  induction l1 as [|a l1 IH]; simpl; intros H1 H2 Hx; [exact H2|].
  apply StronglySorted_inv in H1 as [H1 Ha]. constructor.
  - apply IH; [exact H1 | exact H2 | intros x y Hx' Hy; apply Hx; [now right | exact Hy]].
  - apply Forall_forall. intros y Hy. apply in_app_iff in Hy as [Hy | Hy].
    + exact (proj1 (Forall_forall _ _) Ha y Hy).
    + apply Hx; [now left | exact Hy].
Qed.


Lemma fill_sound (fuel : nat) (cur dur limit : Z) (sl : list (Z * Z)) (c : Z) :
  0 < dur -> fill fuel cur dur limit = (sl, c) ->
  cur <= c
  /\ (forall s e, In (s, e) sl -> cur <= s /\ e = s + dur /\ e <= limit /\ e <= c)
  /\ StronglySorted slot_before sl.
Proof.
  intros Hd. revert cur sl c. induction fuel as [|f IH]; intros cur sl c H.
  - simpl in H. inversion H; subst. split; [lia|]. split; [intros s e []|constructor].
  - rewrite fill_S in H. destruct (cur + dur <=? limit) eqn:E.
    + apply Z.leb_le in E.
      destruct (fill f (cur + dur) dur limit) as [sl1 c1] eqn:E1.
      injection H as <- <-.
      destruct (IH _ _ _ E1) as (Hc & Hs & Hss). split; [lia|]. split.
      * intros s e [Heq | Hin].
        -- injection Heq as <- <-. lia.
        -- destruct (Hs s e Hin) as (? & ? & ? & ?). lia.
      * constructor; [exact Hss|]. apply Forall_forall. intros [s e] Hin.
        unfold slot_before; simpl. destruct (Hs s e Hin) as (? & _). lia.
    + injection H as <- <-. split; [lia|]. split; [intros s e []|constructor].
Qed.


Lemma insert_by_start_In (b x : Booking.t) (l : list Booking.t) :
  In x (insert_by_start b l) <-> x = b \/ In x l.
Proof.
  induction l as [|y l IH]; simpl.
  - split; intros [H|H]; auto.
  - destruct (Booking.start_time y <? Booking.start_time b); simpl; [rewrite IH|];
      split; intros H; intuition (subst; auto).
Qed.

Lemma insert_by_start_sorted (b : Booking.t) (l : list Booking.t) :
  StronglySorted start_le l -> StronglySorted start_le (insert_by_start b l).
Proof.
  induction l as [|y l IH]; simpl; intros H.
  - repeat constructor.
  - apply StronglySorted_inv in H as [Hl Hy].
    destruct (Booking.start_time y <? Booking.start_time b) eqn:E.
    + apply Z.ltb_lt in E. constructor; [now apply IH|].
      apply Forall_forall. intros x Hx. apply insert_by_start_In in Hx as [-> | Hx].
      * unfold start_le. lia.
      * exact (proj1 (Forall_forall _ _) Hy x Hx).
    + apply Z.ltb_ge in E. constructor; [constructor; assumption|].
      constructor; [unfold start_le; lia|].
      apply Forall_forall. intros x Hx.
      pose proof (proj1 (Forall_forall _ _) Hy x Hx). unfold start_le in *. lia.
Qed.

Lemma order_by_start_spec (l : list Booking.t) :
  StronglySorted start_le (order_by_start l)
  /\ forall x, In x (order_by_start l) <-> In x l.
Proof.
  unfold order_by_start. induction l as [|b l [IHs IHi]]; simpl.
  - split; [constructor | tauto].
  - split; [now apply insert_by_start_sorted|].
    intros x. rewrite insert_by_start_In, IHi. split; intros [H|H]; auto.
Qed.

Lemma while_slots_sound (cur dur limit : Z) (sl : list (Z * Z)) (c : Z) :
  0 < dur -> while_slots cur dur limit = (sl, c) ->
  cur <= c
  /\ (forall s e, In (s, e) sl -> cur <= s /\ e = s + dur /\ e <= limit /\ e <= c)
  /\ StronglySorted slot_before sl.
Proof. unfold while_slots. apply fill_sound. Qed.

Lemma sweep_sound (bs : list Booking.t) (cur dur : Z) (sl : list (Z * Z)) (c : Z) :
  0 < dur -> StronglySorted start_le bs -> sweep bs cur dur = (sl, c) ->
  cur <= c
  /\ (forall b, In b bs -> Booking.end_time b <= c)
  /\ (forall s e, In (s, e) sl ->
        cur <= s /\ e = s + dur /\ e <= c
        /\ (exists b, In b bs /\ e <= Booking.start_time b)
        /\ forall b, In b bs ->
           ~ overlaps (Booking.start_time b) (Booking.end_time b) s e)
  /\ StronglySorted slot_before sl.
Proof.
  intros Hd. revert cur sl c.
  induction bs as [|b rest IH]; intros cur sl c Hsort H; simpl in H.
  - injection H as <- <-. split; [lia|]. split; [intros b []|].
    split; [intros s e []|constructor].
  - apply StronglySorted_inv in Hsort as [Hrest Hb].
    destruct (while_slots cur dur (Booking.start_time b)) as [sl1 c1] eqn:E1.
    destruct (sweep rest (Z.max c1 (Booking.end_time b)) dur) as [sl2 c2] eqn:E2.
    injection H as <- <-.
    destruct (while_slots_sound _ _ _ _ _ Hd E1) as (Hc1 & Hs1 & Hss1).
    destruct (IH _ _ _ Hrest E2) as (Hc2 & He2 & Hs2 & Hss2).
    assert (Hle : forall y, In y rest -> Booking.start_time b <= Booking.start_time y)
      by (intros y Hy; exact (proj1 (Forall_forall _ _) Hb y Hy)).
    split; [lia|]. split.
    + intros x [<- | Hx]; [lia | now apply He2].
    + split.
      * intros s e Hin. apply in_app_iff in Hin as [Hin | Hin].
        -- destruct (Hs1 s e Hin) as (? & ? & ? & ?).
           split; [lia|]. split; [assumption|]. split; [lia|].
           split; [exists b; split; [now left | assumption]|].
           intros x [<- | Hx]; unfold overlaps; [lia|].
           specialize (Hle x Hx). lia.
        -- destruct (Hs2 s e Hin) as (? & ? & ? & [y [Hy Hey]] & Hno).
           split; [lia|]. split; [assumption|]. split; [lia|].
           split; [exists y; split; [now right | assumption]|].
           intros x [<- | Hx]; [unfold overlaps; lia | now apply Hno].
      * apply StronglySorted_app; [exact Hss1 | exact Hss2|].
        intros [s1 e1] [s2 e2] Hx Hy. unfold slot_before; simpl.
        destruct (Hs1 s1 e1 Hx) as (_ & _ & _ & ?).
        destruct (Hs2 s2 e2 Hy) as (? & _). lia.
Qed.

(** X10. Every slot [get_available_slots] returns lasts [duration]
    minutes, lies within 08:00-18:00 of the requested day, intersects no
    booking of the room (half-open), and the slots come in ascending,
    non-overlapping order; in a reachable database. *)
Theorem available_slots_free (mapped : bool) (d : db) (room_id date duration : Z)
    (slots : list (Z * Z)) :
  reachable mapped d ->
  get_available_slots mapped room_id date duration d = Ok slots ->
  StronglySorted (fun p q => snd p <= fst q) slots
  /\ forall s e, In (s, e) slots ->
     e = s + duration * 60
     /\ date * 86400 + 8 * HOUR <= s /\ e <= date * 86400 + 18 * HOUR
     /\ room_free d room_id s e.
Proof.
  intros Hr H. apply wf_reachable in Hr as [_ Hwf].
  unfold get_available_slots in H.
  destruct (duration <=? 0) eqn:Edur; [discriminate H|]. apply Z.leb_gt in Edur.
  destruct (find_room d room_id); [|discriminate H].
  destruct mapped; cbn [negb] in H; [|discriminate H].
  set (ds := date * 86400 + 8 * HOUR) in H.
  set (de := ds + 10 * HOUR) in H.
  set (flt := filter _ (bookings d)) in H.
  destruct (order_by_start_spec flt) as [Hsorted Hin].
  set (bks := order_by_start flt) in *.
  assert (Hdd : 0 < duration * 60) by lia.
  destruct (sweep bks ds (duration * 60)) as [sl1 c1] eqn:E1.
  destruct (while_slots c1 (duration * 60) de) as [sl2 c2] eqn:E2.
    injection H as <-.
  destruct (sweep_sound _ _ _ _ _ Hdd Hsorted E1) as (Hc1 & He1 & Hs1 & Hss1).
  destruct (while_slots_sound _ _ _ _ _ Hdd E2) as (_ & Hs2 & Hss2).
  assert (Hbk : forall b, In b bks <->
            In b (bookings d) /\ Booking.room_id b = room_id
            /\ ds <= Booking.start_time b /\ Booking.end_time b <= de).
  { intros b. rewrite Hin. unfold flt. rewrite filter_In, !andb_true_iff,
      Z.eqb_eq, !Z.leb_le. tauto. }
  split.
  - apply StronglySorted_app; [exact Hss1 | exact Hss2|].
    intros [s1 e1] [s2 e2] Hx Hy. simpl.
    destruct (Hs1 s1 e1 Hx) as (_ & _ & ? & _).
    destruct (Hs2 s2 e2 Hy) as (? & _). lia.
  - intros s e Hse.
    assert (Hwin : ds <= s /\ e = s + duration * 60 /\ e <= de
                   /\ forall b, In b bks ->
                      ~ overlaps (Booking.start_time b) (Booking.end_time b) s e).
    { apply in_app_iff in Hse as [Hse | Hse].
      - destruct (Hs1 s e Hse) as (? & ? & ? & [y [Hy Hey]] & Hno).
        apply Hbk in Hy as (Hy & _ & _ & Hyde).
        destruct (Hwf y Hy) as [_ Hyend]. unfold HOUR in Hyend.
        split; [lia|]. split; [assumption|]. split; [lia | exact Hno].
      - destruct (Hs2 s e Hse) as (? & ? & ? & _).
        split; [lia|]. split; [assumption|]. split; [assumption|].
        intros b Hb. pose proof (He1 b Hb). unfold overlaps. lia. }
    destruct Hwin as (Hds & Hdur & Hde & Hno).
    split; [exact Hdur|]. split; [exact Hds|]. split; [unfold de, ds, HOUR in *; lia|].
    intros b Hb Hroom.
    destruct (Z_le_gt_dec ds (Booking.start_time b)) as [Hlo|Hlo];
      [destruct (Z_le_gt_dec (Booking.end_time b) de) as [Hhi|Hhi]|].
    + apply Hno, Hbk. auto.
    + destruct (Hwf b Hb) as [Hv He]. unfold valid_start_time in Hv.
      apply negb_true_iff, misaligned_false_iff in Hv.
      unfold overlaps, de, ds, HOUR in *. Z.div_mod_to_equations. lia.
    + destruct (Hwf b Hb) as [Hv He]. unfold valid_start_time in Hv.
      apply negb_true_iff, misaligned_false_iff in Hv.
      unfold overlaps, de, ds, HOUR in *. Z.div_mod_to_equations. lia.
Qed.

(** ** Ids *)

Lemma next_rowid_gt (l : list Z) (x : Z) : In x l -> x < next_rowid l.
Proof.
  unfold next_rowid. induction l as [|a l IH]; simpl; [intros []|].
  intros [-> | H]; [lia|]. specialize (IH H). lia.
Qed.

Lemma next_rowid_fresh (l : list Z) : ~ In (next_rowid l) l.
Proof. intros H. apply next_rowid_gt in H. lia. Qed.

Lemma NoDup_snoc_fresh (l : list Z) : NoDup l -> NoDup (l ++ [next_rowid l]).
Proof.
  intros H. apply NoDup_app; [exact H | repeat constructor; intros [] |].
  intros x Hx [<- | []]. exact (next_rowid_fresh l Hx).
Qed.

Lemma NoDup_map_filter {A} (f : A -> Z) (p : A -> bool) (l : list A) :
  NoDup (map f l) -> NoDup (map f (filter p l)).
Proof.
  induction l as [|a l IH]; simpl; intros H; [constructor|].
  apply NoDup_cons_iff in H as [Ha Hl].
  destruct (p a); simpl; [|now apply IH].
  constructor; [|now apply IH].
  intros Hin. apply Ha. apply in_map_iff in Hin as [y [Hy Hin]].
  apply filter_In in Hin as [Hin _]. rewrite <- Hy. now apply in_map.
Qed.

(** Replacing the rows whose key is [i] by a row with key [i] keeps the
    keys. *)
Lemma map_key_replace {A} (f : A -> Z) (i : Z) (x : A) (l : list A) :
  f x = i -> map f (map (fun y => if f y =? i then x else y) l) = map f l.
Proof.
  intros Hx. induction l as [|a l IH]; simpl; [reflexivity|].
  rewrite IH. f_equal. destruct (f a =? i) eqn:E; [apply Z.eqb_eq in E; congruence | reflexivity].
Qed.


Lemma ids_handle (mapped : bool) (rq : requester) (ep : endpoint) (d d' : db)
    (res : result response) :
  ids_unique d -> handle mapped rq ep d = (res, d') -> ids_unique d'.
Proof.
  intros Hid H.
  destruct ep; cbn [handle] in H;
    try (inv_pair H; exact Hid);
    (unfold with_user in H; destruct (get_current_user rq) as [u|e0];
       [|inv_pair H; exact Hid]);
    try (inv_pair H; exact Hid);
    unfold map_outcome in H.
  - destruct (create_booking mapped booking d u) as [r0 d0] eqn:E.
    inv_pair H. unfold create_booking in E. destruct_matches_in E; try (inv_pair E; exact Hid).
    unfold insert_booking in E. destruct mapped; inv_pair E; [|exact Hid].
    destruct Hid as [Hr Hb]. split; [exact Hr|]. simpl.
    rewrite map_app. apply NoDup_snoc_fresh, Hb.
  - destruct (update_booking mapped booking_id booking_update d u) as [r0 d0] eqn:E.
    inv_pair H. unfold update_booking, update_booking_traced in E.
    destruct (find_booking d booking_id) as [b|] eqn:Hf; [|inv_pair E; exact Hid].
    apply find_booking_some in Hf as [_ Hbid].
    destruct_matches_in E; simpl in E; inv_pair E; try exact Hid;
    match goal with
    | Ha : apply_update _ _ _ _ = Ok ?b' |- _ =>
      apply apply_update_ok in Ha as (Hi & _);
      destruct Hid as [Hr Hb]; split; [exact Hr|]; unfold replace_booking; simpl;
      rewrite map_key_replace; [exact Hb | congruence]
    end.
  - destruct (delete_booking booking_id d u) as [r0 d0] eqn:E.
    inv_pair H. unfold delete_booking in E.
    destruct (find_booking d booking_id); [|inv_pair E; exact Hid].
    destruct (negb _); inv_pair E; [exact Hid|].
    destruct Hid as [Hr Hb]. split; [exact Hr | now apply NoDup_map_filter].
  - destruct (optimize_booking mapped booking d u) as [r0 d0] eqn:E.
    inv_pair H. unfold optimize_booking in E. destruct_matches_in E; inv_pair E; exact Hid.
  - unfold create_room in H. destruct (negb _); inv_pair H; [exact Hid|].
    destruct Hid as [Hr Hb]. split; [|exact Hb]. simpl.
    rewrite map_app. apply NoDup_snoc_fresh, Hr.
  - destruct (update_room room_id room_update d) as [r0 d0] eqn:E.
    inv_pair H. unfold update_room in E.
    destruct (find_room d room_id) as [room|] eqn:Hf; [|inv_pair E; exact Hid].
    apply find_room_some in Hf as [_ Hrid].
    destruct_matches_in E; inv_pair E; try exact Hid;
      destruct Hid as [Hr Hb]; split; try exact Hb; simpl;
      rewrite map_key_replace; [exact Hr | simpl; exact Hrid | exact Hr | simpl; exact Hrid].
  - destruct (delete_room room_id d) as [r0 d0] eqn:E.
    inv_pair H. unfold delete_room in E.
    destruct (find_room d room_id); inv_pair E; [|exact Hid].
    destruct Hid as [Hr Hb]. split; simpl; now apply NoDup_map_filter.
Qed.

(** X2. In every reachable database no two rooms and no two bookings
    share an id: the new row gets [max(rowid)+1], updates keep ids. *)
Theorem reachable_ids_unique (mapped : bool) (d : db) :
  reachable mapped d ->
  NoDup (map Room.id (rooms d)) /\ NoDup (map Booking.id (bookings d)).
Proof.
  induction 1 as [|d rq ep res d' _ IH _ H].
  - split; constructor.
  - exact (ids_handle mapped rq ep d d' res IH H).
Qed.

(** ** Lookups after writes *)

Lemma find_map_compat {A} (f : A -> bool) (g : A -> A) (l : list A) :
  (forall y, f (g y) = f y) -> find f (map g l) = option_map g (find f l).
Proof.
  intros Hg. induction l as [|a l IH]; simpl; [reflexivity|].
  rewrite Hg. destruct (f a); [reflexivity | exact IH].
Qed.

Lemma find_app_fresh {A} (f : A -> bool) (l : list A) (x : A) :
  (forall y, In y l -> f y = false) -> f x = true -> find f (l ++ [x]) = Some x.
Proof.
  intros Hl Hx. induction l as [|a l IH]; simpl; [now rewrite Hx|].
  rewrite (Hl a (or_introl eq_refl)). apply IH. intros y Hy. apply Hl. now right.
Qed.

Lemma find_filter_other {A} (key : A -> Z) (i j : Z) (l : list A) :
  j <> i ->
  find (fun x => key x =? j) (filter (fun x => negb (key x =? i)) l)
  = find (fun x => key x =? j) l.
Proof.
  intros Hji. induction l as [|a l IH]; simpl; [reflexivity|].
  destruct (key a =? i) eqn:Ei; simpl.
  - apply Z.eqb_eq in Ei. replace (key a =? j) with false; [exact IH|].
    symmetry. apply Z.eqb_neq. lia.
  - destruct (key a =? j); [reflexivity | exact IH].
Qed.

Lemma find_filter_none {A} (key : A -> Z) (i : Z) (l : list A) :
  find (fun x => key x =? i) (filter (fun x => negb (key x =? i)) l) = None.
Proof.
  apply find_none_iff. intros x Hx. apply filter_In in Hx as [_ Hx].
  now destruct (key x =? i).
Qed.

Lemma find_replace_same {A} (key : A -> Z) (i : Z) (x old : A) (l : list A) :
  key x = i -> find (fun y => key y =? i) l = Some old ->
  find (fun y => key y =? i) (map (fun y => if key y =? i then x else y) l) = Some x.
Proof.
  intros Hx Hf. rewrite find_map_compat.
  - rewrite Hf. simpl. apply find_some in Hf as [_ Ho]. now rewrite Ho.
  - intros y. destruct (key y =? i) eqn:E; [rewrite Hx, Z.eqb_refl; reflexivity | rewrite E; reflexivity].
Qed.

Lemma find_replace_other {A} (key : A -> Z) (i j : Z) (x : A) (l : list A) :
  key x = i -> j <> i ->
  find (fun y => key y =? j) (map (fun y => if key y =? i then x else y) l)
  = find (fun y => key y =? j) l.
Proof.
  intros Hx Hji. induction l as [|a l IH]; simpl; [reflexivity|].
  destruct (key a =? i) eqn:Ei.
  - apply Z.eqb_eq in Ei. rewrite Hx.
    replace (i =? j) with false by (symmetry; apply Z.eqb_neq; lia).
    replace (key a =? j) with false by (symmetry; apply Z.eqb_neq; lia).
    exact IH.
  - destruct (key a =? j); [reflexivity | exact IH].
Qed.

(** X3. A successful create ran with [end_time] mapped, found the
    room with enough capacity, appended exactly one booking with a fresh
    id, the requester as owner and [end = start + 1h], and [get_booking]
    of that id returns it. *)
Theorem create_booking_inserts (mapped : bool) (booking : BookingCreate) (d d' : db)
    (current_user : user) (b : Booking.t) :
  create_booking mapped booking d current_user = (Ok b, d') ->
  mapped = true
  /\ (exists room, find_room d (bc_room_id booking) = Some room
                   /\ bc_required_capacity booking <= Room.capacity room)
  /\ b = Booking.mk (Booking.id b) (bc_room_id booking) (uid current_user)
           (bc_start_time booking) (bc_start_time booking + HOUR) (bc_purpose booking)
  /\ ~ In (Booking.id b) (map Booking.id (bookings d))
  /\ rooms d' = rooms d /\ bookings d' = bookings d ++ [b]
  /\ get_booking (Booking.id b) d' = Ok b.
Proof.
  intros H. unfold create_booking in H.
  destruct (find_room d (bc_room_id booking)) as [room|] eqn:Hf; [|discriminate H].
  destruct (Room.capacity room <? bc_required_capacity booking) eqn:Hc; [discriminate H|].
  destruct (misaligned _); [discriminate H|].
  destruct (overlapping _ _ _ _ _ _) as [[?|]|?]; try discriminate H.
  unfold insert_booking in H. destruct mapped; [|discriminate H].
  injection H as <- <-. simpl.
  split; [reflexivity|]. split; [exists room; split; [reflexivity | now apply Z.ltb_ge]|].
  split; [reflexivity|]. split; [apply next_rowid_fresh|].
  split; [reflexivity|]. split; [reflexivity|].
  unfold get_booking, find_booking. simpl. rewrite find_app_fresh; [reflexivity| |apply Z.eqb_refl].
  intros y Hy. apply Z.eqb_neq. intros Heq. apply (next_rowid_fresh (map Booking.id (bookings d))).
  rewrite <- Heq. now apply in_map.
Qed.

Lemma update_ok_commit (mapped : bool) (i : Z) (bu : BookingUpdate) (d d' : db)
    (u : user) (b : Booking.t) :
  update_booking mapped i bu d u = (Ok b, d') ->
  exists old, find_booking d i = Some old /\ Booking.user_id old = uid u
    /\ apply_update bu old (effective_start bu old) (effective_start bu old + HOUR) = Ok b
    /\ d' = replace_booking d i b.
Proof.
  intros H. unfold update_booking, update_booking_traced in H.
  destruct (find_booking d i) as [old|] eqn:Hf; [|discriminate H].
  destruct (negb (Booking.user_id old =? uid u)) eqn:Eu; [discriminate H|].
  apply negb_false_iff, Z.eqb_eq in Eu.
  exists old. split; [reflexivity|]. split; [exact Eu|].
  unfold effective_start.
  destruct (misaligned _); [discriminate H|].
  destruct_matches_in H; simpl in H; try discriminate H;
    inversion H; subst; split; reflexivity.
Qed.

(** X4. A successful update was made by the owner; the booking keeps
    its id and owner, takes the given room (or keeps its own), the effective
    start time, [end = start + 1h] and the given purpose; [get_booking]
    returns it, and rooms and every other booking are unchanged. *)
Theorem update_booking_commits (mapped : bool) (booking_id : Z) (bu : BookingUpdate)
    (d d' : db) (current_user : user) (b : Booking.t) :
  update_booking mapped booking_id bu d current_user = (Ok b, d') ->
  exists old, find_booking d booking_id = Some old
   /\ Booking.user_id old = uid current_user
   /\ b = Booking.mk booking_id
            (match bu_room_id bu with Some (Some r) => r | _ => Booking.room_id old end)
            (Booking.user_id old) (effective_start bu old) (effective_start bu old + HOUR)
            (match bu_purpose bu with None => Booking.purpose old | Some p => p end)
   /\ get_booking booking_id d' = Ok b
   /\ rooms d' = rooms d
   /\ (forall j, j <> booking_id -> get_booking j d' = get_booking j d).
Proof.
  intros H. apply update_ok_commit in H as (old & Hf & Hu & Ha & ->).
  exists old. split; [exact Hf|]. split; [exact Hu|].
  assert (Hb : b = Booking.mk booking_id
            (match bu_room_id bu with Some (Some r) => r | _ => Booking.room_id old end)
            (Booking.user_id old) (effective_start bu old) (effective_start bu old + HOUR)
            (match bu_purpose bu with None => Booking.purpose old | Some p => p end)).
  { apply find_booking_some in Hf as [_ Hid]. rewrite <- Hid.
    unfold apply_update in Ha.
    destruct (bu_room_id bu) as [[r|]|]; simpl in Ha; try discriminate Ha;
      injection Ha as <-; reflexivity. }
  split; [exact Hb|].
  assert (Hid : Booking.id b = booking_id) by (rewrite Hb; reflexivity).
  split; [|split; [reflexivity|]].
  - unfold get_booking, find_booking, replace_booking. simpl.
    unfold find_booking in Hf.
    rewrite (find_replace_same Booking.id booking_id b old _ Hid Hf). reflexivity.
  - intros j Hj. unfold get_booking, find_booking, replace_booking. simpl.
    rewrite (find_replace_other Booking.id booking_id j b _ Hid Hj). reflexivity.
Qed.

(** X6. A successful delete removes exactly the rows with that id:
    rooms and every other booking are unchanged. *)
Theorem delete_booking_frame (booking_id : Z) (d d' : db) (current_user : user) (u : unit) :
  delete_booking booking_id d current_user = (Ok u, d') ->
  rooms d' = rooms d
  /\ (forall b, In b (bookings d') <-> In b (bookings d) /\ Booking.id b <> booking_id)
  /\ (forall j, j <> booking_id -> get_booking j d' = get_booking j d).
Proof.
  intros H. unfold delete_booking in H.
  destruct (find_booking d booking_id); [|discriminate H].
  destruct (negb _); [discriminate H|]. injection H as _ <-. simpl.
  split; [reflexivity|]. split.
  - intros b. rewrite filter_In, negb_true_iff, Z.eqb_neq. tauto.
  - intros j Hj. unfold get_booking, find_booking. simpl.
    rewrite (find_filter_other Booking.id booking_id j _ Hj). reflexivity.
Qed.

(** ** Whole requests *)

(** X7. A request that fails, at any endpoint and for any reason,
    leaves the database unchanged. *)
Theorem failed_request_changes_nothing (mapped : bool) (rq : requester) (ep : endpoint)
    (d d' : db) (e : error) :
  handle mapped rq ep d = (Err e, d') -> d' = d.
Proof.
  intros H.
  destruct ep; cbn [handle] in H;
    try (inv_pair H; reflexivity);
    (unfold with_user in H; destruct (get_current_user rq) as [u|e0];
       [|injection H as _ <-; reflexivity]);
    try (injection H as _ <-; reflexivity);
    unfold map_outcome in H.
  - destruct (create_booking mapped booking d u) as [r0 d0] eqn:E.
    injection H as Hr <-. unfold create_booking in E.
    destruct_matches_in E; try (inv_pair E; reflexivity).
    unfold insert_booking in E. destruct mapped; inv_pair E; [discriminate Hr | reflexivity].
  - destruct (update_booking mapped booking_id booking_update d u) as [r0 d0] eqn:E.
    injection H as Hr <-. destruct r0 as [b|x]; [discriminate Hr|].
    unfold update_booking, update_booking_traced in E.
    destruct_matches_in E; simpl in E; first [discriminate E | injection E as _ <-; reflexivity].
  - destruct (delete_booking booking_id d u) as [r0 d0] eqn:E.
    injection H as Hr <-. unfold delete_booking in E.
    destruct (find_booking d booking_id); [|inv_pair E; reflexivity].
    destruct (negb _); inv_pair E; [reflexivity | discriminate Hr].
  - destruct (optimize_booking mapped booking d u) as [r0 d0] eqn:E.
    injection H as _ <-. unfold optimize_booking in E.
    destruct_matches_in E; inv_pair E; reflexivity.
  - unfold create_room in H. destruct (negb _); [injection H as _ <-; reflexivity|].
    discriminate H.
  - destruct (update_room room_id room_update d) as [r0 d0] eqn:E.
    injection H as Hr <-. unfold update_room in E.
    destruct_matches_in E; inv_pair E; first [reflexivity | discriminate Hr].
  - destruct (delete_room room_id d) as [r0 d0] eqn:E.
    injection H as Hr <-. unfold delete_room in E.
    destruct (find_room d room_id); inv_pair E; [discriminate Hr | reflexivity].
Qed.

(** ** Pagination *)

Lemma firstn_skipn_split {A} (a b : nat) (l : list A) :
  firstn a l ++ firstn b (skipn a l) = firstn (a + b) l.
Proof.
  revert l. induction a as [|a IH]; intros l; [reflexivity|].
  destruct l as [|x l]; simpl; [now destruct b|]. f_equal. apply IH.
Qed.

Lemma page_split {A} (l : list A) (skip l1 l2 : Z) :
  0 <= skip -> 0 <= l1 -> 0 <= l2 ->
  (let rest := skipn (Z.to_nat skip) l in
   if l1 <? 0 then rest else firstn (Z.to_nat l1) rest)
  ++ (let rest := skipn (Z.to_nat (skip + l1)) l in
      if l2 <? 0 then rest else firstn (Z.to_nat l2) rest)
  = (let rest := skipn (Z.to_nat skip) l in
     if l1 + l2 <? 0 then rest else firstn (Z.to_nat (l1 + l2)) rest).
Proof.
  intros Hs H1 H2. cbv zeta.
  rewrite (proj2 (Z.ltb_ge l1 0)), (proj2 (Z.ltb_ge l2 0)), (proj2 (Z.ltb_ge (l1 + l2) 0))
    by lia.
  rewrite !Z2Nat.inj_add by lia.
  rewrite Nat.add_comm, <- skipn_skipn. apply firstn_skipn_split.
Qed.

(** X9. For non-negative [skip] and limits, consecutive pages of
    [GET /bookings/] and [GET /rooms/] concatenate to the larger page, and
    a page holds at most [limit] rows. *)
Theorem pagination_pages_concatenate (d : db) (skip l1 l2 : Z) :
  0 <= skip -> 0 <= l1 -> 0 <= l2 ->
  get_bookings skip l1 d ++ get_bookings (skip + l1) l2 d = get_bookings skip (l1 + l2) d
  /\ get_rooms skip l1 d ++ get_rooms (skip + l1) l2 d = get_rooms skip (l1 + l2) d
  /\ (List.length (get_bookings skip l1 d) <= Z.to_nat l1)%nat
  /\ (List.length (get_rooms skip l1 d) <= Z.to_nat l1)%nat.
Proof.
  intros Hs H1 H2. unfold get_bookings, get_rooms.
  split; [now apply page_split|]. split; [now apply page_split|].
  rewrite (proj2 (Z.ltb_ge l1 0)) by lia.
  split; rewrite length_firstn; lia.
Qed.

(** ** Rooms *)

(** X13. [create_room] fails with [OverflowError], changing nothing,
    exactly when the capacity lies outside SQLite's 64-bit integer range;
    otherwise it appends one room with the given fields and a fresh
    positive id, and [get_room] returns it. *)
Theorem create_room_then_get (room : RoomCreate) (d : db) :
  (sqlite_int (rc_capacity room) = false ->
     create_room room d = (Err SQLITE_OVERFLOW, d))
  /\ (sqlite_int (rc_capacity room) = true ->
     exists r, create_room room d = (Ok r, mkdb (rooms d ++ [r]) (bookings d))
      /\ r = Room.mk (Room.id r) (rc_name room) (rc_capacity room) (rc_location room)
      /\ 0 < Room.id r /\ ~ In (Room.id r) (map Room.id (rooms d))
      /\ get_room (Room.id r) (mkdb (rooms d ++ [r]) (bookings d)) = Ok r).
Proof.
  unfold create_room. split; intros Hc; rewrite Hc; [reflexivity|].
  eexists. split; [reflexivity|]. simpl.
  split; [reflexivity|]. split; [apply next_rowid_pos|]. split; [apply next_rowid_fresh|].
  unfold get_room, find_room. simpl. rewrite find_app_fresh; [reflexivity| |apply Z.eqb_refl].
  intros y Hy. apply Z.eqb_neq. intros Heq. apply (next_rowid_fresh (map Room.id (rooms d))).
  rewrite <- Heq. now apply in_map.
Qed.


(** X14. A successful room update merges the fields that were
    set into the stored room, keeps its id, [get_room] returns the new room,
    other rooms and all bookings are unchanged. *)
Theorem update_room_commits (room_id : Z) (room_update : RoomUpdate) (d d' : db)
    (r : Room.t) :
  update_room room_id room_update d = (Ok r, d') ->
  exists old, find_room d room_id = Some old
   /\ Room.id r = room_id
   /\ Some (Room.name r) = match ru_name room_update with
                           | None => Some (Room.name old) | Some n => n end
   /\ Some (Room.capacity r) = match ru_capacity room_update with
                               | None => Some (Room.capacity old) | Some c => c end
   /\ Room.location r = match ru_location room_update with
                        | None => Room.location old | Some l => l end
   /\ get_room room_id d' = Ok r
   /\ (forall j, j <> room_id -> get_room j d' = get_room j d)
   /\ bookings d' = bookings d.
Proof.
  intros H. unfold update_room in H.
  destruct (find_room d room_id) as [old|] eqn:Hf; [|discriminate H].
  exists old. split; [reflexivity|].
  pose proof (find_room_some _ _ _ Hf) as [_ Hid].
  destruct (match ru_capacity room_update with
            | Some (Some c) => negb (sqlite_int c) | _ => false end); [discriminate H|].
  destruct (match ru_name room_update with
            | None => Some (Room.name old) | Some n => n end) as [n|] eqn:En;
    [|discriminate H].
  destruct (match ru_capacity room_update with
            | None => Some (Room.capacity old) | Some c => c end) as [c|] eqn:Ec;
    [|discriminate H].
  injection H as <- <-. simpl.
  split; [exact Hid|]. split; [reflexivity|]. split; [reflexivity|].
  split; [reflexivity|].
  split; [|split; [|reflexivity]].
  - unfold get_room, find_room. simpl. unfold find_room in Hf.
    erewrite (find_replace_same Room.id room_id _ old _); [reflexivity | exact Hid | exact Hf].
  - intros j Hj. unfold get_room, find_room. simpl.
    rewrite (find_replace_other Room.id room_id j); [reflexivity | exact Hid | exact Hj].
Qed.

(** X15. Deleting a room removes it and exactly the bookings of
    that room; other rooms stay readable as before. *)
Theorem delete_room_cascades (room_id : Z) (d d' : db) (u : unit) :
  delete_room room_id d = (Ok u, d') ->
  get_room room_id d' = Err ROOM_NOT_FOUND
  /\ (forall j, j <> room_id -> get_room j d' = get_room j d)
  /\ (forall b, In b (bookings d') <->
        In b (bookings d) /\ Booking.room_id b <> room_id).
Proof.
  intros H. unfold delete_room in H.
  destruct (find_room d room_id) as [old|] eqn:Hf; [|discriminate H].
  apply find_room_some in Hf as [_ Hid].
  injection H as _ <-. split; [|split].
  - unfold get_room, find_room. simpl. now rewrite find_filter_none.
  - intros j Hj. unfold get_room, find_room. simpl.
    rewrite (find_filter_other Room.id room_id j _ Hj). reflexivity.
  - intros b. simpl. rewrite filter_In, negb_true_iff, Z.eqb_neq, Hid. tauto.
Qed.

(** ** Update with [room_id = 0] *)

(** X5. An owner's update giving [room_id = 0] and no start time
    is truthiness-skipped past the room lookup and overlap query, and moves
    the booking to room 0, which no room of a reachable database has. *)
Theorem update_room_zero_orphans (mapped : bool) (d : db) (booking_id : Z)
    (b : Booking.t) (p : option (option string)) (current_user : user) :
  reachable mapped d ->
  find_booking d booking_id = Some b ->
  Booking.user_id b = uid current_user ->
  find_room d 0 = None
  /\ update_booking_traced mapped booking_id (mkBookingUpdate (Some (Some 0)) None p)
       d current_user
     = let b' := Booking.mk (Booking.id b) 0 (Booking.user_id b)
                   (Booking.start_time b) (Booking.start_time b + HOUR)
                   (match p with None => Booking.purpose b | Some q => q end) in
       ((Ok b', replace_booking d booking_id b'), [GValidate (Booking.start_time b)]).
Proof.
  intros Hr Hf Hu.
  destruct (wf_booking_of mapped d booking_id b Hr Hf) as [Hm _].
  split.
  - apply wf_reachable in Hr as [Hrooms _].
    apply find_none_iff. intros x Hx. apply Z.eqb_neq.
    specialize (Hrooms x Hx). lia.
  - unfold update_booking_traced. rewrite Hf, <- Hu, Z.eqb_refl. simpl.
    rewrite Hm. reflexivity.
Qed.

(** X1. In every reachable database room ids are positive and every
    booking starts on the hour and ends exactly one hour later. *)
Theorem reachable_bookings_one_hour (mapped : bool) (d : db) :
  reachable mapped d ->
  (forall r, In r (rooms d) -> 0 < Room.id r)
  /\ (forall b, In b (bookings d) ->
        Booking.start_time b mod 3600 = 0
        /\ Booking.end_time b = Booking.start_time b + HOUR).
Proof.
  intros Hr. apply wf_reachable in Hr as [Hrooms Hb].
  split; [exact Hrooms|]. intros b Hin. destruct (Hb b Hin) as [Hv He].
  split; [|exact He]. unfold valid_start_time in Hv.
  apply misaligned_false_iff. now destruct (misaligned _).
Qed.

(** ** Witnesses of the further properties *)

Lemma reachable_bookings_one_hour_witness :
  (forall r, In r (rooms db_0900) -> 0 < Room.id r)
  /\ (forall b, In b (bookings db_0900) ->
        Booking.start_time b mod 3600 = 0
        /\ Booking.end_time b = Booking.start_time b + HOUR).
Proof. exact (reachable_bookings_one_hour true db_0900 reachable_db_0900). Defined.

Lemma reachable_ids_unique_witness :
  NoDup (map Room.id (rooms db_0900)) /\ NoDup (map Booking.id (bookings db_0900)).
Proof. exact (reachable_ids_unique true db_0900 reachable_db_0900). Defined.

Lemma create_booking_inserts_witness :
  let b := Booking.mk 2 1 (uid bob) t1000 (t1000 + HOUR) None in
  true = true
  /\ (exists room, find_room db_0900 1 = Some room /\ 5 <= Room.capacity room)
  /\ b = Booking.mk (Booking.id b) 1 (uid bob) t1000 (t1000 + HOUR) None
  /\ ~ In (Booking.id b) (map Booking.id (bookings db_0900))
  /\ rooms db_0900_after_1000 = rooms db_0900
  /\ bookings db_0900_after_1000 = bookings db_0900 ++ [b]
  /\ get_booking (Booking.id b) db_0900_after_1000 = Ok b.
Proof.
  exact (create_booking_inserts true (mkBookingCreate 1 t1000 None 5) db_0900
           db_0900_after_1000 bob (Booking.mk 2 1 (uid bob) t1000 (t1000 + HOUR) None)
           ltac:(vm_compute; reflexivity)).
Defined.

Lemma update_booking_commits_witness :
  exists old, find_booking db_0900 1 = Some old
   /\ Booking.user_id old = uid alice
   /\ booking_1000_retro
      = Booking.mk 1 (Booking.room_id old) (Booking.user_id old)
          (effective_start (mkBookingUpdate None (Some (Some t1000)) (Some (Some "Retro"))) old)
          (effective_start (mkBookingUpdate None (Some (Some t1000)) (Some (Some "Retro"))) old + HOUR)
          (Some "Retro")
   /\ get_booking 1 (replace_booking db_0900 1 booking_1000_retro) = Ok booking_1000_retro
   /\ rooms (replace_booking db_0900 1 booking_1000_retro) = rooms db_0900
   /\ (forall j, j <> 1 ->
       get_booking j (replace_booking db_0900 1 booking_1000_retro) = get_booking j db_0900).
Proof.
  exact (update_booking_commits true 1
           (mkBookingUpdate None (Some (Some t1000)) (Some (Some "Retro")))
           db_0900 (replace_booking db_0900 1 booking_1000_retro) alice booking_1000_retro
           ltac:(vm_compute; reflexivity)).
Defined.

Lemma update_room_zero_orphans_witness :
  find_room db_0900 0 = None
  /\ update_booking_traced true 1 (mkBookingUpdate (Some (Some 0)) None None) db_0900 alice
     = let b' := Booking.mk 1 0 (uid alice) t0900 (t0900 + HOUR) (Some "Team Meeting") in
       ((Ok b', replace_booking db_0900 1 b'), [GValidate t0900]).
Proof.
  exact (update_room_zero_orphans true db_0900 1
           (Booking.mk 1 1 (uid alice) t0900 (t0900 + HOUR) (Some "Team Meeting"))
           None alice reachable_db_0900 eq_refl eq_refl).
Defined.

Lemma delete_booking_frame_witness :
  rooms (mkdb [room10] []) = rooms db_0900
  /\ (forall b, In b (bookings (mkdb [room10] [])) <->
        In b (bookings db_0900) /\ Booking.id b <> 1)
  /\ (forall j, j <> 1 -> get_booking j (mkdb [room10] []) = get_booking j db_0900).
Proof.
  exact (delete_booking_frame 1 db_0900 (mkdb [room10] []) alice tt
           ltac:(vm_compute; reflexivity)).
Defined.

Lemma failed_request_changes_nothing_witness : db_0900 = db_0900.
Proof.
  exact (failed_request_changes_nothing true (Bearer bob) (DeleteBooking 1) db_0900
           db_0900 NOT_AUTH_DELETE ltac:(vm_compute; reflexivity)).
Defined.

Lemma pagination_pages_concatenate_witness :
  get_bookings 0 1 db_0900_after_1000 ++ get_bookings (0 + 1) 1 db_0900_after_1000
    = get_bookings 0 (1 + 1) db_0900_after_1000
  /\ get_rooms 0 1 db_0900_after_1000 ++ get_rooms (0 + 1) 1 db_0900_after_1000
    = get_rooms 0 (1 + 1) db_0900_after_1000
  /\ (List.length (get_bookings 0 1 db_0900_after_1000) <= Z.to_nat 1)%nat
  /\ (List.length (get_rooms 0 1 db_0900_after_1000) <= Z.to_nat 1)%nat.
Proof.
  exact (pagination_pages_concatenate db_0900_after_1000 0 1 1
           ltac:(lia) ltac:(lia) ltac:(lia)).
Defined.

Lemma available_slots_free_witness :
  let slots := map (fun i => (day0 * 86400 + i * HOUR, day0 * 86400 + (i + 1) * HOUR))
                   [8; 10; 11; 12; 13; 14; 15; 16; 17] in
  StronglySorted (fun p q => snd p <= fst q) slots
  /\ forall s e, In (s, e) slots ->
     e = s + 60 * 60
     /\ day0 * 86400 + 8 * HOUR <= s /\ e <= day0 * 86400 + 18 * HOUR
     /\ room_free db_0900 1 s e.
Proof.
  exact (available_slots_free true db_0900 1 day0 60
           (map (fun i => (day0 * 86400 + i * HOUR, day0 * 86400 + (i + 1) * HOUR))
                [8; 10; 11; 12; 13; 14; 15; 16; 17])
           reachable_db_0900 ltac:(vm_compute; reflexivity)).
Defined.

Lemma find_optimal_room_sound_witness :
  (forall room, find_optimal_room db_0900 (t1000 + HOUR) (t1000 + 2 * HOUR) 5 = Ok (Some room) ->
     In room (rooms db_0900) /\ 5 <= Room.capacity room
     /\ conflicts db_0900 (Room.id room) (t1000 + HOUR) (t1000 + 2 * HOUR) = 0%nat
     /\ forall r', In r' (rooms db_0900) -> 5 <= Room.capacity r' ->
        conflicts db_0900 (Room.id r') (t1000 + HOUR) (t1000 + 2 * HOUR) = 0%nat ->
        Room.capacity room <= Room.capacity r')
  /\ (find_optimal_room db_0900 (t1000 + HOUR) (t1000 + 2 * HOUR) 5 = Ok None ->
      forall r', In r' (rooms db_0900) -> 5 <= Room.capacity r' ->
      conflicts db_0900 (Room.id r') (t1000 + HOUR) (t1000 + 2 * HOUR) <> 0%nat).
Proof.
  exact (find_optimal_room_sound db_0900 (t1000 + HOUR) (t1000 + 2 * HOUR) 5
           ltac:(vm_compute; reflexivity)).
Defined.

Lemma scheduler_conflict_iff_witness :
  scheduler_conflict 1 t1000 (t1000 + HOUR)
    (Booking.mk 1 1 (uid alice) t0900 (t0900 + HOUR) (Some "Team Meeting")) = true <->
  1 = 1
  /\ (overlaps t0900 (t0900 + HOUR) t1000 (t1000 + HOUR) \/ t0900 + HOUR = t1000).
Proof.
  exact (scheduler_conflict_iff 1 t1000
           (Booking.mk 1 1 (uid alice) t0900 (t0900 + HOUR) (Some "Team Meeting")) eq_refl).
Defined.

Lemma update_room_commits_witness :
  exists old, find_room db_0900 1 = Some old
   /\ Room.id room20 = 1
   /\ Some (Room.name room20) = Some (Room.name old)
   /\ Some (Room.capacity room20) = Some 20
   /\ Room.location room20 = Room.location old
   /\ get_room 1 (mkdb [room20] (bookings db_0900)) = Ok room20
   /\ (forall j, j <> 1 -> get_room j (mkdb [room20] (bookings db_0900)) = get_room j db_0900)
   /\ bookings (mkdb [room20] (bookings db_0900)) = bookings db_0900.
Proof.
  exact (update_room_commits 1 (mkRoomUpdate None (Some (Some 20)) None) db_0900
           (mkdb [room20] (bookings db_0900)) room20 ltac:(vm_compute; reflexivity)).
Defined.

Lemma delete_room_cascades_witness :
  get_room 1 (mkdb [] []) = Err ROOM_NOT_FOUND
  /\ (forall j, j <> 1 -> get_room j (mkdb [] []) = get_room j db_0900)
  /\ (forall b, In b (bookings (mkdb [] [])) <->
        In b (bookings db_0900) /\ Booking.room_id b <> 1).
Proof.
  exact (delete_room_cascades 1 db_0900 (mkdb [] []) tt ltac:(vm_compute; reflexivity)).
Defined.

(** ** C4: one-hour bookings *)

(** C4. Every booking the core operations produce satisfies
    [end_time = start_time + 1h]: the booking a successful create or
    optimize-and-book returns, and stores; the booking a successful update
    returns, whatever fields it supplies, and stores under its id; and
    every booking of a reachable database. *)
Theorem booking_end_time_one_hour :
  (forall mapped bc d u b d', create_booking mapped bc d u = (Ok b, d') ->
     Booking.end_time b = Booking.start_time b + HOUR /\ In b (bookings d'))
  /\ (forall mapped bo d u b d', optimize_booking mapped bo d u = (Ok b, d') ->
     Booking.end_time b = Booking.start_time b + HOUR /\ In b (bookings d'))
  /\ (forall mapped i bu d u b d', update_booking mapped i bu d u = (Ok b, d') ->
     Booking.end_time b = Booking.start_time b + HOUR /\ find_booking d' i = Some b)
  /\ (forall mapped d, reachable mapped d -> forall b, In b (bookings d) ->
     Booking.end_time b = Booking.start_time b + HOUR).
Proof.
  split; [|split; [|split]].
  - intros mapped bc d u b d' H. unfold create_booking in H.
    destruct (find_room d (bc_room_id bc)) as [room|]; [|discriminate H].
    destruct (Room.capacity room <? bc_required_capacity bc); [discriminate H|].
    destruct (misaligned _); [discriminate H|].
    destruct (overlapping _ _ _ _ _ _) as [[?|]|?]; try discriminate H.
    unfold insert_booking in H. destruct mapped; [|discriminate H].
    injection H as <- <-. split; [reflexivity|].
    simpl. apply in_or_app. right. left. reflexivity.
  - intros mapped bo d u b d' H. unfold optimize_booking in H.
    destruct (misaligned _); [discriminate H|].
    destruct (find_optimal_room _ _ _ _) as [[r|]|e]; discriminate H.
  - intros mapped i bu d u b d' H.
    apply update_ok_commit in H as (old & Hf & _ & Ha & ->).
    pose proof Ha as Hb. apply apply_update_ok in Hb as (Hid & _ & Hs & He).
    split; [now rewrite He, Hs|].
    apply find_booking_some in Hf as Hf'. destruct Hf' as [_ Hoid].
    unfold find_booking, replace_booking in *. simpl.
    apply (find_replace_same Booking.id i b old); [congruence | exact Hf].
  - intros mapped d Hr b Hin.
    exact (proj2 (proj2 (wf_reachable mapped d Hr) b Hin)).
Qed.

(** A create with [end_time] mapped, and a [purpose]-only update with
    the repository's class, both yield a one-hour booking. *)
Lemma booking_end_time_one_hour_witness :
  (exists b d', create_booking true (mkBookingCreate 1 t1000 None 5) db_0900 bob
                = (Ok b, d')
     /\ Booking.end_time b = Booking.start_time b + HOUR /\ In b (bookings d'))
  /\ (exists b d', update_booking models_booking_end_time_mapped 1
                     (mkBookingUpdate None None (Some (Some "Review"))) db_0900 alice
                   = (Ok b, d')
     /\ Booking.end_time b = Booking.start_time b + HOUR /\ find_booking d' 1 = Some b).
Proof.
  split.
  - destruct (create_booking true (mkBookingCreate 1 t1000 None 5) db_0900 bob)
      as [[b|e] d'] eqn:E; [|vm_compute in E; discriminate E].
    exists b, d'. split; [reflexivity|].
    exact (proj1 booking_end_time_one_hour true _ _ _ b d' E).
  - destruct (update_booking models_booking_end_time_mapped 1
                (mkBookingUpdate None None (Some (Some "Review"))) db_0900 alice)
      as [[b|e] d'] eqn:E; [|vm_compute in E; discriminate E].
    exists b, d'. split; [reflexivity|].
    exact (proj1 (proj2 (proj2 booking_end_time_one_hour)) _ 1 _ _ _ b d' E).
Defined.

(** A capacity of [2^63] overflows; a capacity of 10 yields a new room. *)
Lemma create_room_then_get_witness :
  create_room (mkRoomCreate "Hall" (2 ^ 63) None) db_0900 = (Err SQLITE_OVERFLOW, db_0900)
  /\ exists r, create_room (mkRoomCreate "Hall" 10 None) db_0900
               = (Ok r, mkdb (rooms db_0900 ++ [r]) (bookings db_0900))
     /\ 0 < Room.id r.
Proof.
  split.
  - apply (proj1 (create_room_then_get (mkRoomCreate "Hall" (2 ^ 63) None) db_0900)).
    reflexivity.
  - destruct (proj2 (create_room_then_get (mkRoomCreate "Hall" 10 None) db_0900) eq_refl)
      as (r & E & _ & Hp & _).
    exists r. split; assumption.
Defined.
